(** * Fitness tracker: a shallow embedding of [homework.py]

    The module computes distance, mean speed and spent calories of a
    workout (running, sports walking, swimming) and renders them into
    a one-line message.

    Python numbers are modelled as they are at run time: an [int] is an
    unbounded integer ([Z]), a [float] is an IEEE 754 binary64 value
    (Rocq's primitive [float]), and the arithmetic operators follow
    Python's coercion rules and raise Python's exceptions. *)

From Stdlib Require Import ZArith Bool List String Ascii Lia.
From Stdlib Require Import Floats Uint63 DecimalString.
Import ListNotations.

Set Warnings "-inexact-float".

Local Open Scope Z_scope.

(** ** Exceptions and outcomes *)

(** The exception classes the program can raise.  The two exceptions
    raised by [homework.py] itself carry their message. *)
Inductive exn : Type :=
| ValueError (msg : string)
| NotImplementedError (msg : string)
| ZeroDivisionError
| OverflowError
| TypeError
| AttributeError.

(** The outcome of evaluating an expression: a value or a raised
    exception. *)
Inductive outcome (A : Type) : Type :=
| Ok (a : A)
| Raise (e : exn).

Arguments Ok {A} a.
Arguments Raise {A} e.

Definition bind {A B : Type} (c : outcome A) (k : A -> outcome B) : outcome B :=
  match c with
  | Ok a => k a
  | Raise e => Raise e
  end.

Declare Scope outcome_scope.
Delimit Scope outcome_scope with outcome.
Bind Scope outcome_scope with outcome.

Notation "x <- c ;; k" := (bind c (fun x => k))
  (at level 61, c at next level, right associativity) : outcome_scope.

Definition returns {A : Type} (c : outcome A) : bool :=
  match c with
  | Ok _ => true
  | Raise _ => false
  end.

(** ** Python numbers *)

Module Py.

(** A Python number: an [int] or a [float]. *)
Inductive num : Type :=
| Int (z : Z)
| Float (f : float).

(** [x == 0] on numbers; for floats both signed zeros are zero, NaN is
    not. *)
Definition is_zero (x : num) : bool :=
  match x with
  | Int z => z =? 0
  | Float f => PrimFloat.is_zero f
  end.

(** [float(z)]: the integer rounded to the nearest binary64 value, ties
    to even; an integer beyond the float range raises [OverflowError]. *)
Definition int_to_float (z : Z) : outcome float :=
  let f := SF2Prim (binary_normalize prec emax z 0 false) in
  if is_infinity f then Raise OverflowError else Ok f.

(** The implicit conversion of an operand of a float operation. *)
Definition as_float (x : num) : outcome float :=
  match x with
  | Int z => int_to_float z
  | Float f => Ok f
  end.

(** [x * y] *)
Definition mul (x y : num) : outcome num :=
  match x, y with
  | Int a, Int b => Ok (Int (a * b))
  | _, _ =>
      (a <- as_float x ;;
       b <- as_float y ;;
       Ok (Float (a * b)%float))%outcome
  end.

(** [x + y] *)
Definition add (x y : num) : outcome num :=
  match x, y with
  | Int a, Int b => Ok (Int (a + b))
  | _, _ =>
      (a <- as_float x ;;
       b <- as_float y ;;
       Ok (Float (a + b)%float))%outcome
  end.

(** [a / b] on two integers, [b] nonzero: the exact quotient rounded
    once to the nearest float, ties to even.  The quotient is computed
    with at least 55 significant bits and a sticky bit, which rounds
    as the exact quotient does. *)
Definition int_true_divide (a b : Z) : outcome float :=
  let n := Z.abs a in
  let d := Z.abs b in
  let k := Z.max 0 (57 + Z.log2 d - Z.log2 n) in
  let q := Z.shiftl n k / d in
  let sticky := if Z.shiftl n k mod d =? 0 then 0 else 1 in
  let m := 2 * q + sticky in
  let neg := xorb (a <? 0) (b <? 0) in
  let sm := if neg then - m else m in
  let f := SF2Prim (binary_normalize prec emax sm (- k - 1) (b <? 0)) in
  if is_infinity f then Raise OverflowError else Ok f.

(** [x / y] (true division).  Two integers are divided exactly and
    rounded once; otherwise both operands are converted to float, the
    conversion failing before the divisor is looked at.  A divisor
    equal to zero raises [ZeroDivisionError]. *)
Definition truediv (x y : num) : outcome num :=
  match x, y with
  | Int a, Int b =>
      if b =? 0 then Raise ZeroDivisionError
      else (q <- int_true_divide a b ;; Ok (Float q))%outcome
  | _, _ =>
      (a <- as_float x ;;
       b <- as_float y ;;
       if is_zero y then Raise ZeroDivisionError
       else Ok (Float (a / b)%float))%outcome
  end.

Section Pow.

(** The platform's [pow] of the C library, used by [float ** float]
    on finite operands. *)
Variable libm_pow : float -> float -> float.

(** [v ** 2] on a float: the special cases Python sorts out itself,
    then the platform [pow] on the absolute value, an infinite result
    raising [OverflowError]. *)
Definition float_pow2 (v : float) : outcome float :=
  if is_nan v then Ok v
  else if is_infinity v then Ok (PrimFloat.abs v)
  else if PrimFloat.is_zero v then Ok 0%float
  else
    let iv := if (v <? 0)%float then (- v)%float else v in
    if (iv =? 1)%float then Ok 1%float
    else
      let ix := libm_pow iv 2%float in
      if is_infinity ix then Raise OverflowError else Ok ix.

(** [x ** 2] *)
Definition pow2 (x : num) : outcome num :=
  match x with
  | Int a => Ok (Int (a * a))
  | Float v => (r <- float_pow2 v ;; Ok (Float r))%outcome
  end.

End Pow.

(** *** Fixed-point formatting, [format(x, ".3f")] *)

(** The magnitude [m * 2^e] in thousandths, rounded to the nearest
    integer, ties to even. *)
Definition thousandths (m e : Z) : Z :=
  if 0 <=? e then m * 2 ^ e * 1000
  else
    let d := 2 ^ (- e) in
    let n := m * 1000 in
    let q := n / d in
    match 2 * (n mod d) ?= d with
    | Lt => q
    | Gt => q + 1
    | Eq => if Z.even q then q else q + 1
    end.

Definition decimal (n : Z) : string :=
  NilZero.string_of_uint (N.to_uint (Z.to_N n)).

Definition digit (n : Z) : ascii :=
  ascii_of_N (48 + Z.to_N n).

(** A count of thousandths as [int.frac] with three decimals. *)
Definition fixed3 (n : Z) : string :=
  let frac := n mod 1000 in
  (decimal (n / 1000) ++ "." ++
   String (digit (frac / 100))
     (String (digit (frac / 10 mod 10))
        (String (digit (frac mod 10)) EmptyString)))%string.

Definition sign_prefix (s : bool) : string :=
  if s then "-"%string else ""%string.

Definition float_format_3f (x : float) : string :=
  match Prim2SF x with
  | S754_nan => "nan"%string
  | S754_infinity s => (sign_prefix s ++ "inf")%string
  | S754_zero s => (sign_prefix s ++ "0.000")%string
  | S754_finite s m e => (sign_prefix s ++ fixed3 (thousandths (Zpos m) e))%string
  end.

(** [format(x, ".3f")] on a number; an [int] is converted to float
    first. *)
Definition format_3f (x : num) : outcome string :=
  (f <- as_float x ;; Ok (float_format_3f f))%outcome.

End Py.

Import Py.

(** ** InfoMessage *)

Module InfoMessage.

Record t : Type := Build {
  training_type : string;
  duration : num;
  distance : num;
  speed : num;
  calories : num
}.

(** [MESSAGE_TEMPLATE.format] on the fields of [self]: the fields are
    rendered from left to right, each number with [.3f]. *)
Definition get_message (self : t) : outcome string :=
  (duration <- format_3f (duration self) ;;
   distance <- format_3f (distance self) ;;
   speed <- format_3f (speed self) ;;
   calories <- format_3f (calories self) ;;
   Ok ("Тип тренировки: " ++ training_type self ++ "; "
       ++ "Длительность: " ++ duration ++ " ч.; "
       ++ "Дистанция: " ++ distance ++ " км; "
       ++ "Ср. скорость: " ++ speed ++ " км/ч; "
       ++ "Потрачено ккал: " ++ calories ++ ".")%string)%outcome.

End InfoMessage.

(** ** Training and its subclasses *)

(** The four classes of the module. *)
Inductive class : Type :=
| ClassTraining
| ClassRunning
| ClassSportsWalking
| ClassSwimming.

(** A workout object: its class and its instance attributes. *)
Inductive Training : Type :=
| BaseTraining (action duration weight : num)
| Running (action duration weight : num)
| SportsWalking (action duration weight height : num)
| Swimming (action duration weight length_pool count_pool : num).

Definition class_of (self : Training) : class :=
  match self with
  | BaseTraining _ _ _ => ClassTraining
  | Running _ _ _ => ClassRunning
  | SportsWalking _ _ _ _ => ClassSportsWalking
  | Swimming _ _ _ _ _ => ClassSwimming
  end.

(** [cls.__name__] *)
Definition class_name (c : class) : string :=
  match c with
  | ClassTraining => "Training"
  | ClassRunning => "Running"
  | ClassSportsWalking => "SportsWalking"
  | ClassSwimming => "Swimming"
  end.

Definition action (self : Training) : num :=
  match self with
  | BaseTraining a _ _ | Running a _ _
  | SportsWalking a _ _ _ | Swimming a _ _ _ _ => a
  end.

Definition duration (self : Training) : num :=
  match self with
  | BaseTraining _ d _ | Running _ d _
  | SportsWalking _ d _ _ | Swimming _ d _ _ _ => d
  end.

Definition weight (self : Training) : num :=
  match self with
  | BaseTraining _ _ w | Running _ _ w
  | SportsWalking _ _ w _ | Swimming _ _ w _ _ => w
  end.

Definition height (self : Training) : outcome num :=
  match self with
  | SportsWalking _ _ _ h => Ok h
  | _ => Raise AttributeError
  end.

Definition length_pool (self : Training) : outcome num :=
  match self with
  | Swimming _ _ _ lp _ => Ok lp
  | _ => Raise AttributeError
  end.

Definition count_pool (self : Training) : outcome num :=
  match self with
  | Swimming _ _ _ _ cp => Ok cp
  | _ => Raise AttributeError
  end.

(** *** Class constants *)

Definition M_IN_KM : num := Int 1000.
Definition MIN_IN_HOUR : num := Int 60.

(** [LEN_STEP] is looked up through the class of the object; [Swimming]
    overrides it. *)
Definition LEN_STEP (c : class) : num :=
  match c with
  | ClassSwimming => Float 1.38
  | _ => Float 0.65
  end.

Module RunningConst.
Definition CALORIES_MEAN_SPEED_MULTIPLIER : num := Int 18.
Definition CALORIES_MEAN_SPEED_SHIFT : num := Float 1.79.
End RunningConst.

Module SportsWalkingConst.
Definition MSEC_IN_KMHOUR : num := Float 0.278.
Definition SM_IN_M : num := Int 100.
Definition CALORIES_WEIGHT_FIRST_MULTIPLIER : num := Float 0.035.
Definition CALORIES_WEIGHT_SECOND_MULTIPLIER : num := Float 0.029.
End SportsWalkingConst.

Module SwimmingConst.
Definition CALORIES_SPEED_SHIFT : num := Float 1.1.
Definition CALORIES_SPEED_MULTIPLIER : num := Int 2.
End SwimmingConst.

(** *** Methods

    A method runs on the object [self] and yields an outcome together
    with the object as the call leaves it. *)

Definition method (A : Type) : Type := Training -> outcome A * Training.

Definition mret {A : Type} (a : A) : method A := fun self => (Ok a, self).

Definition mbind {A B : Type} (c : method A) (k : A -> method B) : method B :=
  fun self =>
    match c self with
    | (Ok a, self') => k a self'
    | (Raise e, self') => (Raise e, self')
    end.

(** An operator applied to values already computed. *)
Definition eval {A : Type} (c : outcome A) : method A := fun self => (c, self).

(** Reading an instance attribute, [self.x]. *)
Definition attr {A : Type} (get : Training -> A) : method A :=
  fun self => (Ok (get self), self).

(** Reading an attribute that only some classes set in [__init__]. *)
Definition attr_opt {A : Type} (get : Training -> outcome A) : method A :=
  fun self => (get self, self).

(** Reading a constant through the class of [self]. *)
Definition class_attr {A : Type} (get : class -> A) : method A :=
  fun self => (Ok (get (class_of self)), self).

Definition raise {A : Type} (e : exn) : method A := fun self => (Raise e, self).

Declare Scope method_scope.
Delimit Scope method_scope with method.
Bind Scope method_scope with method.

Notation "x <- c ;; k" := (mbind c (fun x => k))
  (at level 61, c at next level, right associativity) : method_scope.

(** The outcome of a call and the object after it. *)
Definition result {A : Type} (m : method A) (self : Training) : outcome A :=
  fst (m self).

Definition after {A : Type} (m : method A) (self : Training) : Training :=
  snd (m self).

Section Methods.

Variable libm_pow : float -> float -> float.

(** [Training.get_distance] *)
Definition Training_get_distance : method num :=
  (act <- attr action ;;
   len_step <- class_attr LEN_STEP ;;
   steps <- eval (mul act len_step) ;;
   eval (truediv steps M_IN_KM))%method.

(** No class overrides [get_distance]. *)
Definition get_distance : method num := Training_get_distance.

(** [Training.get_mean_speed] *)
Definition Training_get_mean_speed : method num :=
  (dist <- get_distance ;;
   dur <- attr duration ;;
   eval (truediv dist dur))%method.

(** [Swimming.get_mean_speed] *)
Definition Swimming_get_mean_speed : method num :=
  (len <- attr_opt length_pool ;;
   cnt <- attr_opt count_pool ;;
   meters <- eval (mul len cnt) ;;
   km <- eval (truediv meters M_IN_KM) ;;
   dur <- attr duration ;;
   eval (truediv km dur))%method.

(** [self.get_mean_speed()], resolved on the class of [self]. *)
Definition get_mean_speed : method num :=
  fun self =>
    match class_of self with
    | ClassSwimming => Swimming_get_mean_speed self
    | _ => Training_get_mean_speed self
    end.

(** [Training.get_spent_calories] *)
Definition Training_get_spent_calories : method num :=
  raise (NotImplementedError
           "В дочерних классах не описан метод get_spent_calories.").

(** [Running.get_spent_calories] *)
Definition Running_get_spent_calories : method num :=
  (mean_speed <- get_mean_speed ;;
   x <- eval (mul RunningConst.CALORIES_MEAN_SPEED_MULTIPLIER mean_speed) ;;
   x <- eval (add x RunningConst.CALORIES_MEAN_SPEED_SHIFT) ;;
   wt <- attr weight ;;
   x <- eval (mul x wt) ;;
   x <- eval (truediv x M_IN_KM) ;;
   dur <- attr duration ;;
   x <- eval (mul x dur) ;;
   eval (mul x MIN_IN_HOUR))%method.

(** [SportsWalking.get_spent_calories] *)
Definition SportsWalking_get_spent_calories : method num :=
  (wt <- attr weight ;;
   first <- eval (mul SportsWalkingConst.CALORIES_WEIGHT_FIRST_MULTIPLIER wt) ;;
   mean_speed <- get_mean_speed ;;
   y <- eval (mul mean_speed SportsWalkingConst.MSEC_IN_KMHOUR) ;;
   y <- eval (pow2 libm_pow y) ;;
   ht <- attr_opt height ;;
   y <- eval (truediv y ht) ;;
   y <- eval (mul y SportsWalkingConst.SM_IN_M) ;;
   y <- eval (mul y SportsWalkingConst.CALORIES_WEIGHT_SECOND_MULTIPLIER) ;;
   wt <- attr weight ;;
   second <- eval (mul y wt) ;;
   x <- eval (add first second) ;;
   dur <- attr duration ;;
   x <- eval (mul x dur) ;;
   eval (mul x MIN_IN_HOUR))%method.

(** [Swimming.get_spent_calories] *)
Definition Swimming_get_spent_calories : method num :=
  (mean_speed <- get_mean_speed ;;
   x <- eval (add mean_speed SwimmingConst.CALORIES_SPEED_SHIFT) ;;
   x <- eval (mul x SwimmingConst.CALORIES_SPEED_MULTIPLIER) ;;
   wt <- attr weight ;;
   x <- eval (mul x wt) ;;
   dur <- attr duration ;;
   eval (mul x dur))%method.

(** [self.get_spent_calories()], resolved on the class of [self]. *)
Definition get_spent_calories : method num :=
  fun self =>
    match class_of self with
    | ClassTraining => Training_get_spent_calories self
    | ClassRunning => Running_get_spent_calories self
    | ClassSportsWalking => SportsWalking_get_spent_calories self
    | ClassSwimming => Swimming_get_spent_calories self
    end.

(** [Training.show_training_info], inherited by every class. *)
Definition show_training_info : method InfoMessage.t :=
  (name <- class_attr class_name ;;
   dur <- attr duration ;;
   dist <- get_distance ;;
   speed <- get_mean_speed ;;
   calories <- get_spent_calories ;;
   mret (InfoMessage.Build name dur dist speed calories))%method.

End Methods.

(** ** read_package *)

(** Calling a class on [*data]: the arguments are bound positionally
    to the parameters of [__init__]; a wrong count is a [TypeError]. *)
Definition Running_new (data : list num) : outcome Training :=
  match data with
  | [action; duration; weight] => Ok (Running action duration weight)
  | _ => Raise TypeError
  end.

Definition SportsWalking_new (data : list num) : outcome Training :=
  match data with
  | [action; duration; weight; height] =>
      Ok (SportsWalking action duration weight height)
  | _ => Raise TypeError
  end.

Definition Swimming_new (data : list num) : outcome Training :=
  match data with
  | [action; duration; weight; length_pool; count_pool] =>
      Ok (Swimming action duration weight length_pool count_pool)
  | _ => Raise TypeError
  end.

(** The dictionary of [read_package], in source order. *)
Definition training_types : list (string * (list num -> outcome Training)) :=
  [ ("RUN"%string, Running_new);
    ("WLK"%string, SportsWalking_new);
    ("SWM"%string, Swimming_new) ].

Fixpoint lookup {V : Type} (key : string) (d : list (string * V)) : option V :=
  match d with
  | [] => None
  | (k, v) :: rest => if String.eqb key k then Some v else lookup key rest
  end.

Definition read_package (workout_type : string) (data : list num)
  : outcome Training :=
  match lookup workout_type training_types with
  | None => Raise (ValueError "Неправильный тип тренировки.")
  | Some new => new data
  end.

(** ** main *)

(** [main] prints the message of the training; the line printed is the
    outcome. *)
Definition main (libm_pow : float -> float -> float) (training : Training)
  : outcome string :=
  (info <- result (show_training_info libm_pow) training ;;
   InfoMessage.get_message info)%outcome.

(** The packages of the [__main__] block. *)
Definition packages : list (string * list num) :=
  [ ("SWM"%string, [Int 720; Int 1; Int 80; Int 25; Int 40]);
    ("RUN"%string, [Int 15000; Int 1; Int 75]);
    ("WLK"%string, [Int 9000; Int 1; Int 75; Int 180]) ].

(** ** The formulas of the specification

    The formulas are written as Python expressions over outcomes: an
    operator evaluates its left operand, then its right operand, then
    applies the Python operation. *)

Definition lift2 (op : num -> num -> outcome num) (x y : outcome num)
  : outcome num :=
  (a <- x ;; b <- y ;; op a b)%outcome.

Definition value (x : num) : outcome num := Ok x.
Coercion value : num >-> outcome.

Declare Scope py_scope.
Delimit Scope py_scope with py.

Notation "x * y" := (lift2 mul x y) : py_scope.
Notation "x + y" := (lift2 add x y) : py_scope.
Notation "x / y" := (lift2 truediv x y) : py_scope.

(** [x ** 2] on an outcome. *)
Definition squared (libm_pow : float -> float -> float) (x : outcome num)
  : outcome num :=
  bind x (pow2 libm_pow).

Module Spec.

Definition M_IN_KM : num := Int 1000.
Definition MIN_IN_HOUR : num := Int 60.

(** The step length of a variant: 0.65 for running and walking, 1.38
    for swimming. *)
Definition LEN_STEP (c : class) : num :=
  match c with
  | ClassSwimming => Float 1.38
  | ClassRunning | ClassSportsWalking | ClassTraining => Float 0.65
  end.

(** [action * LEN_STEP / M_IN_KM] *)
Definition distance (action len_step : num) : outcome num :=
  (action * len_step / M_IN_KM)%py.

(** [get_distance() / duration] *)
Definition mean_speed (distance duration : num) : outcome num :=
  (distance / duration)%py.

(** [length_pool * count_pool / M_IN_KM / duration] *)
Definition swimming_mean_speed (length_pool count_pool duration : num)
  : outcome num :=
  (length_pool * count_pool / M_IN_KM / duration)%py.

(** [(18 * mean_speed + 1.79) * weight / M_IN_KM * duration * MIN_IN_HOUR] *)
Definition running_calories (mean_speed weight duration : num)
  : outcome num :=
  ((Int 18 * mean_speed + Float 1.79) * weight / M_IN_KM
   * duration * MIN_IN_HOUR)%py.

(** [(0.035 * weight + (mean_speed * 0.278)^2 / height * 100 * 0.029
     * weight) * duration * MIN_IN_HOUR] *)
Definition walking_calories (libm_pow : float -> float -> float)
  (mean_speed weight height duration : num) : outcome num :=
  ((Float 0.035 * weight
    + squared libm_pow (mean_speed * Float 0.278) / height
      * Int 100 * Float 0.029 * weight)
   * duration * MIN_IN_HOUR)%py.

(** [(mean_speed + 1.1) * 2 * weight * duration] *)
Definition swimming_calories (mean_speed weight duration : num)
  : outcome num :=
  ((mean_speed + Float 1.1) * Int 2 * weight * duration)%py.

End Spec.

(** An outcome that is a float or the overflow of a conversion: what an
    arithmetic expression with a float operand and no zero divisor
    gives. *)
Definition float_or_overflow (c : outcome num) : Prop :=
  (exists f, c = Ok (Float f)) \/ c = Raise OverflowError.


(** A method that leaves the object as it found it. *)
Definition readonly {A : Type} (m : method A) : Prop :=
  forall self, after m self = self.

(** ** Distances of integer step counts

    For a step count that fits a machine integer the conversion to
    float is the primitive one, and the distance is a chain of two
    float operations.  [increasing_on len_step k a] compares the
    distances of every two consecutive step counts from [a] to
    [a + 2^k]. *)







(** A C library whose [pow] is correctly rounded at the exponent 2. *)
Definition pow_by_product (x y : float) : float := (x * x)%float.

(** The message of the training built from a package, as the
    [__main__] block prints it. *)
Definition message_of (libm_pow : float -> float -> float)
  (workout_type : string) (data : list num) : outcome string :=
  (training <- read_package workout_type data ;;
   main libm_pow training)%outcome.


(** An outcome that is a float or one of the two exceptions of the
    arithmetic, [ZeroDivisionError] and [OverflowError]. *)
Definition arith_outcome (c : outcome num) : Prop :=
  match c with
  | Ok (Float _) => True
  | Ok (Int _) => False
  | Raise ZeroDivisionError | Raise OverflowError => True
  | Raise _ => False
  end.

(** * Properties *)

(** ** The arithmetic on examples *)

Example int_to_float_ties_to_even :
  int_to_float (2 ^ 53 + 1) = Ok 9007199254740992%float
  /\ int_to_float (2 ^ 53 + 3) = Ok 9007199254740996%float.
Proof. split; vm_compute; reflexivity. Qed.

Example int_to_float_overflow :
  int_to_float (2 ^ 1024 - 1) = Raise OverflowError
  /\ returns (int_to_float (2 ^ 1024 - 2 ^ 970 - 1)) = true.
Proof. split; vm_compute; reflexivity. Qed.

Example int_true_divide_rounds_once :
  int_true_divide 1 3 = Ok (1 / 3)%float
  /\ int_true_divide (2 ^ 54 + 6) 2 = Ok 9007199254740996%float
  /\ int_true_divide (10 ^ 400) (10 ^ 399) = Ok 10%float
  /\ int_true_divide 0 (-5) = Ok (-0)%float
  /\ int_true_divide (10 ^ 400) 1 = Raise OverflowError.
Proof. repeat split; vm_compute; reflexivity. Qed.

Example truediv_exceptions :
  truediv (Float 1) (Int 0) = Raise ZeroDivisionError
  /\ truediv (Int 1) (Float (-0)) = Raise ZeroDivisionError
  /\ truediv (Int (10 ^ 400)) (Int 0) = Raise ZeroDivisionError
  /\ truediv (Int (10 ^ 400)) (Float 0) = Raise OverflowError.
Proof. repeat split; vm_compute; reflexivity. Qed.

Example format_3f_rounds_half_even :
  float_format_3f 0.0625 = "0.062"%string
  /\ float_format_3f 0.1875 = "0.188"%string
  /\ float_format_3f 2.5 = "2.500"%string
  /\ float_format_3f 9.9996 = "10.000"%string
  /\ float_format_3f (-0.0001) = "-0.000"%string
  /\ format_3f (Int 1) = Ok "1.000"%string.
Proof. repeat split; vm_compute; reflexivity. Qed.

(** ** Outcomes of the arithmetic *)

Lemma bind_ok {A B : Type} (a : A) (k : A -> outcome B) :
  bind (Ok a) k = k a.
Proof. reflexivity. Qed.

Lemma bind_raise {A B : Type} (e : exn) (k : A -> outcome B) :
  bind (Raise e) k = Raise e.
Proof. reflexivity. Qed.

Lemma lift2_value (op : num -> num -> outcome num) (x y : num) :
  lift2 op x y = op x y.
Proof. reflexivity. Qed.

Lemma lift2_bind_l (op : num -> num -> outcome num) (c : outcome num) (y : num) :
  lift2 op c y = bind c (fun a => op a y).
Proof. destruct c; reflexivity. Qed.

Lemma int_to_float_cases (z : Z) :
  (exists f, int_to_float z = Ok f) \/ int_to_float z = Raise OverflowError.
Proof.
  unfold int_to_float.
  destruct (is_infinity _); [right | left; eexists]; reflexivity.
Qed.

Lemma as_float_cases (x : num) :
  (exists f, as_float x = Ok f) \/ as_float x = Raise OverflowError.
Proof.
  destruct x as [z | f]; [apply int_to_float_cases | left; eexists; reflexivity].
Qed.

Lemma int_true_divide_cases (a b : Z) :
  (exists f, int_true_divide a b = Ok f)
  \/ int_true_divide a b = Raise OverflowError.
Proof.
  unfold int_true_divide.
  destruct (is_infinity _); [right | left; eexists]; reflexivity.
Qed.

Lemma float_binop_cases (op : float -> float -> float) (x y : num) :
  float_or_overflow
    (a <- as_float x ;; b <- as_float y ;; Ok (Float (op a b)))%outcome.
Proof.
  destruct (as_float_cases x) as [[a ->] | ->]; [| right; reflexivity].
  destruct (as_float_cases y) as [[b ->] | ->]; [| right; reflexivity].
  left; eexists; reflexivity.
Qed.

Lemma mul_float_l (f : float) (y : num) : float_or_overflow (mul (Float f) y).
Proof. apply (float_binop_cases PrimFloat.mul (Float f) y). Qed.

Lemma mul_float_r (x : num) (f : float) : float_or_overflow (mul x (Float f)).
Proof.
  destruct x; [apply (float_binop_cases PrimFloat.mul (Int z) (Float f))
              | apply mul_float_l].
Qed.

Lemma add_float_l (f : float) (y : num) : float_or_overflow (add (Float f) y).
Proof. apply (float_binop_cases PrimFloat.add (Float f) y). Qed.

Lemma add_float_r (x : num) (f : float) : float_or_overflow (add x (Float f)).
Proof.
  destruct x; [apply (float_binop_cases PrimFloat.add (Int z) (Float f))
              | apply add_float_l].
Qed.

(** A division by a nonzero number gives a float, or overflows. *)
Lemma truediv_nonzero (x y : num) :
  is_zero y = false -> float_or_overflow (truediv x y).
Proof.
  intros Hy. unfold truediv.
  destruct x as [a | f], y as [b | g].
  - change (b =? 0) with (is_zero (Int b)). rewrite Hy.
    destruct (int_true_divide_cases a b) as [[q ->] | ->];
      [left; eexists | right]; reflexivity.
  - destruct (as_float_cases (Int a)) as [[q ->] | ->]; [| right; reflexivity].
    cbn [bind as_float]. rewrite Hy. left; eexists; reflexivity.
  - destruct (as_float_cases (Int b)) as [[q ->] | ->]; [| right; reflexivity].
    cbn [bind as_float]. rewrite Hy. left; eexists; reflexivity.
  - cbn [bind as_float]. rewrite Hy. left; eexists; reflexivity.
Qed.

Lemma pow2_float (libm_pow : float -> float -> float) (f : float) :
  float_or_overflow (pow2 libm_pow (Float f)).
Proof.
  unfold pow2, float_pow2.
  repeat match goal with
         | |- context [if ?b then _ else _] => destruct b
         end;
    first [left; eexists; reflexivity | right; reflexivity].
Qed.

(** Sequencing keeps the property when every continuation on a float
    has it. *)
Lemma float_or_overflow_bind (c : outcome num) (k : num -> outcome num) :
  float_or_overflow c ->
  (forall f, float_or_overflow (k (Float f))) ->
  float_or_overflow (bind c k).
Proof.
  intros [[f ->] | ->] Hk; [apply Hk | right; reflexivity].
Qed.

Lemma float_or_overflow_not_zero_division (c : outcome num) :
  float_or_overflow c -> c <> Raise ZeroDivisionError.
Proof. intros [[f ->] | ->]; discriminate. Qed.

Lemma M_IN_KM_nonzero : is_zero M_IN_KM = false.
Proof. reflexivity. Qed.

Lemma float_or_overflow_lift2_l (op : num -> num -> outcome num)
  (c : outcome num) (y : num) :
  float_or_overflow c ->
  (forall f, float_or_overflow (op (Float f) y)) ->
  float_or_overflow (lift2 op c y).
Proof.
  intros Hc Hop. rewrite lift2_bind_l.
  now apply float_or_overflow_bind.
Qed.

Lemma float_or_overflow_lift2 (op : num -> num -> outcome num)
  (c1 c2 : outcome num) :
  float_or_overflow c1 ->
  float_or_overflow c2 ->
  (forall f g, float_or_overflow (op (Float f) (Float g))) ->
  float_or_overflow (lift2 op c1 c2).
Proof.
  intros [[f ->] | ->] [[g ->] | ->] Hop;
    first [apply Hop | right; reflexivity].
Qed.

(** ** Methods only read the object *)

Lemma readonly_mret {A : Type} (a : A) : readonly (mret a).
Proof. intros self. reflexivity. Qed.

Lemma readonly_eval {A : Type} (c : outcome A) : readonly (eval c).
Proof. intros self. reflexivity. Qed.

Lemma readonly_attr {A : Type} (get : Training -> A) : readonly (attr get).
Proof. intros self. reflexivity. Qed.

Lemma readonly_attr_opt {A : Type} (get : Training -> outcome A) :
  readonly (attr_opt get).
Proof. intros self. reflexivity. Qed.

Lemma readonly_class_attr {A : Type} (get : class -> A) :
  readonly (class_attr get).
Proof. intros self. reflexivity. Qed.

Lemma readonly_raise {A : Type} (e : exn) : readonly (@raise A e).
Proof. intros self. reflexivity. Qed.

Lemma readonly_mbind {A B : Type} (c : method A) (k : A -> method B) :
  readonly c -> (forall a, readonly (k a)) -> readonly (mbind c k).
Proof.
  intros Hc Hk self. unfold after, mbind.
  specialize (Hc self). unfold after in Hc.
  destruct (c self) as [[a | e] self']; cbn in *; subst self'.
  - apply Hk.
  - reflexivity.
Qed.

Create HintDb readonly.
#[export] Hint Resolve readonly_mret readonly_eval readonly_attr
  readonly_attr_opt readonly_class_attr readonly_raise : readonly.

Ltac readonly_steps :=
  repeat (apply readonly_mbind; [ | intros ]); auto with readonly.

Lemma readonly_get_distance : readonly get_distance.
Proof. unfold get_distance, Training_get_distance. readonly_steps. Qed.

#[export] Hint Resolve readonly_get_distance : readonly.

Lemma readonly_get_mean_speed : readonly get_mean_speed.
Proof.
  assert (Ht : readonly Training_get_mean_speed)
    by (unfold Training_get_mean_speed; readonly_steps).
  assert (Hs : readonly Swimming_get_mean_speed)
    by (unfold Swimming_get_mean_speed; readonly_steps).
  intros self. unfold after, get_mean_speed.
  destruct (class_of self); first [apply Ht | apply Hs].
Qed.

#[export] Hint Resolve readonly_get_mean_speed : readonly.

Lemma readonly_get_spent_calories (libm_pow : float -> float -> float) :
  readonly (get_spent_calories libm_pow).
Proof.
  assert (Ht : readonly Training_get_spent_calories)
    by (unfold Training_get_spent_calories; readonly_steps).
  assert (Hr : readonly Running_get_spent_calories)
    by (unfold Running_get_spent_calories; readonly_steps).
  assert (Hw : readonly (SportsWalking_get_spent_calories libm_pow))
    by (unfold SportsWalking_get_spent_calories; readonly_steps).
  assert (Hs : readonly Swimming_get_spent_calories)
    by (unfold Swimming_get_spent_calories; readonly_steps).
  intros self. unfold after, get_spent_calories.
  destruct (class_of self); first [apply Ht | apply Hr | apply Hw | apply Hs].
Qed.

#[export] Hint Resolve readonly_get_spent_calories : readonly.

Lemma readonly_show_training_info (libm_pow : float -> float -> float) :
  readonly (show_training_info libm_pow).
Proof. unfold show_training_info. readonly_steps. Qed.

(** Calling a read-only method twice in a row gives the same outcome
    twice and the object it started from. *)
Lemma readonly_twice {A : Type} (m : method A) (self : Training) :
  readonly m ->
  after m self = self
  /\ result m (after m self) = result m self
  /\ after m (after m self) = self.
Proof.
  intros Hm. rewrite !Hm. repeat split.
Qed.

(** ** The outcome of each method as an expression *)

Arguments mul : simpl never.
Arguments add : simpl never.
Arguments truediv : simpl never.
Arguments pow2 : simpl never.

(** Push [fst] through the sequencing of a method and split on each
    intermediate outcome. *)
Ltac run_method :=
  unfold M_IN_KM, MIN_IN_HOUR, Spec.M_IN_KM, Spec.MIN_IN_HOUR,
    RunningConst.CALORIES_MEAN_SPEED_MULTIPLIER,
    RunningConst.CALORIES_MEAN_SPEED_SHIFT,
    SportsWalkingConst.MSEC_IN_KMHOUR, SportsWalkingConst.SM_IN_M,
    SportsWalkingConst.CALORIES_WEIGHT_FIRST_MULTIPLIER,
    SportsWalkingConst.CALORIES_WEIGHT_SECOND_MULTIPLIER,
    SwimmingConst.CALORIES_SPEED_SHIFT,
    SwimmingConst.CALORIES_SPEED_MULTIPLIER;
  cbn;
  repeat match goal with
         | |- context [match ?c with Ok _ => _ | Raise _ => _ end] =>
             destruct c; cbn
         end;
  try reflexivity.

Lemma result_get_distance (self : Training) :
  result get_distance self
  = Spec.distance (action self) (LEN_STEP (class_of self)).
Proof.
  unfold result, get_distance, Training_get_distance, Spec.distance.
  unfold mbind, attr, class_attr, eval, lift2, value.
  run_method.
Qed.

Lemma result_Training_get_mean_speed (self : Training) :
  result Training_get_mean_speed self
  = (dist <- result get_distance self ;;
     Spec.mean_speed dist (duration self))%outcome.
Proof.
  unfold result, Training_get_mean_speed, get_distance, Training_get_distance.
  unfold Spec.mean_speed, mbind, attr, class_attr, eval, lift2, value.
  run_method.
Qed.

Lemma result_Swimming_get_mean_speed (a d w lp cp : num) :
  result get_mean_speed (Swimming a d w lp cp)
  = Spec.swimming_mean_speed lp cp d.
Proof.
  unfold result, get_mean_speed, Swimming_get_mean_speed.
  unfold Spec.swimming_mean_speed, mbind, attr, attr_opt, eval, lift2, value.
  run_method.
Qed.

Lemma result_Running_get_spent_calories
  (libm_pow : float -> float -> float) (a d w : num) :
  result (get_spent_calories libm_pow) (Running a d w)
  = (ms <- result get_mean_speed (Running a d w) ;;
     Spec.running_calories ms w d)%outcome.
Proof.
  unfold result, get_spent_calories, Running_get_spent_calories.
  unfold get_mean_speed, Training_get_mean_speed, get_distance,
    Training_get_distance, Spec.running_calories.
  unfold mbind, attr, class_attr, eval, lift2, value.
  run_method.
Qed.

Lemma result_Swimming_get_spent_calories
  (libm_pow : float -> float -> float) (a d w lp cp : num) :
  result (get_spent_calories libm_pow) (Swimming a d w lp cp)
  = (ms <- result get_mean_speed (Swimming a d w lp cp) ;;
     Spec.swimming_calories ms w d)%outcome.
Proof.
  unfold result, get_spent_calories, Swimming_get_spent_calories.
  unfold get_mean_speed, Swimming_get_mean_speed, Spec.swimming_calories.
  unfold mbind, attr, attr_opt, eval, lift2, value.
  run_method.
Qed.

Lemma LEN_STEP_is_float (c : class) : exists f, LEN_STEP c = Float f.
Proof. destruct c; eexists; reflexivity. Qed.

Lemma LEN_STEP_spec (c : class) : LEN_STEP c = Spec.LEN_STEP c.
Proof. destruct c; reflexivity. Qed.

Lemma distance_float_or_overflow (x : num) (f : float) :
  float_or_overflow (Spec.distance x (Float f)).
Proof.
  unfold Spec.distance. apply float_or_overflow_lift2_l.
  - rewrite lift2_value. apply mul_float_r.
  - intros g. apply truediv_nonzero. reflexivity.
Qed.

Lemma get_distance_float_or_overflow (self : Training) :
  float_or_overflow (result get_distance self).
Proof.
  rewrite result_get_distance.
  destruct (LEN_STEP_is_float (class_of self)) as [f ->].
  apply distance_float_or_overflow.
Qed.

Lemma swimming_mean_speed_float_or_overflow (lp cp d : num) :
  is_zero d = false ->
  float_or_overflow (Spec.swimming_mean_speed lp cp d).
Proof.
  intros Hd. unfold Spec.swimming_mean_speed.
  rewrite lift2_value, !lift2_bind_l.
  destruct (mul lp cp) as [m | e] eqn:Hm; cbn [bind].
  - apply float_or_overflow_bind.
    + apply truediv_nonzero. reflexivity.
    + intros f. now apply truediv_nonzero.
  - right. f_equal.
    destruct lp as [x | x], cp as [y | y].
    + discriminate Hm.
    + destruct (mul_float_r (Int x) y) as [[g Hg] | Hg]; congruence.
    + destruct (mul_float_l x (Int y)) as [[g Hg] | Hg]; congruence.
    + destruct (mul_float_l x (Float y)) as [[g Hg] | Hg]; congruence.
Qed.

Lemma get_mean_speed_float_or_overflow (self : Training) :
  is_zero (duration self) = false ->
  float_or_overflow (result get_mean_speed self).
Proof.
  intros Hd.
  assert (Ht : float_or_overflow (result Training_get_mean_speed self)).
  { rewrite result_Training_get_mean_speed.
    apply float_or_overflow_bind.
    - apply get_distance_float_or_overflow.
    - intros f. unfold Spec.mean_speed. rewrite lift2_value.
      now apply truediv_nonzero. }
  destruct self as [a d w | a d w | a d w h | a d w lp cp]; try exact Ht.
  rewrite result_Swimming_get_mean_speed.
  now apply swimming_mean_speed_float_or_overflow.
Qed.

Lemma running_calories_float_or_overflow (f : float) (w d : num) :
  float_or_overflow (Spec.running_calories (Float f) w d).
Proof.
  unfold Spec.running_calories.
  do 5 (apply float_or_overflow_lift2_l;
          [ | intros; first [ apply mul_float_l | apply add_float_l
                            | apply truediv_nonzero; reflexivity ] ]).
  rewrite lift2_value. apply mul_float_r.
Qed.

Lemma swimming_calories_float_or_overflow (f : float) (w d : num) :
  float_or_overflow (Spec.swimming_calories (Float f) w d).
Proof.
  unfold Spec.swimming_calories.
  do 3 (apply float_or_overflow_lift2_l;
          [ | intros; first [ apply mul_float_l | apply add_float_l ] ]).
  rewrite lift2_value. apply add_float_l.
Qed.

Lemma walking_calories_float_or_overflow
  (libm_pow : float -> float -> float) (f : float) (w h d : num) :
  is_zero h = false ->
  float_or_overflow (Spec.walking_calories libm_pow (Float f) w h d).
Proof.
  intros Hh. unfold Spec.walking_calories.
  do 2 (apply float_or_overflow_lift2_l; [ | intros; apply mul_float_l ]).
  apply float_or_overflow_lift2.
  - rewrite lift2_value. apply mul_float_l.
  - do 3 (apply float_or_overflow_lift2_l; [ | intros; apply mul_float_l ]).
    apply float_or_overflow_lift2_l.
    + unfold squared. apply float_or_overflow_bind.
      * rewrite lift2_value. apply mul_float_l.
      * intros g. apply pow2_float.
    + intros g. now apply truediv_nonzero.
  - intros x y. apply add_float_l.
Qed.

(** [SportsWalking.get_spent_calories] multiplies the weight before it
    asks for the mean speed; with a nonzero duration both can only fail
    by overflow, so the outcome is that of the formula on the mean
    speed. *)
Lemma result_SportsWalking_get_spent_calories
  (libm_pow : float -> float -> float) (a d w h : num) :
  is_zero d = false ->
  result (get_spent_calories libm_pow) (SportsWalking a d w h)
  = (ms <- result get_mean_speed (SportsWalking a d w h) ;;
     Spec.walking_calories libm_pow ms w h d)%outcome.
Proof.
  intros Hd.
  pose proof (get_mean_speed_float_or_overflow (SportsWalking a d w h) Hd)
    as Hms.
  destruct (mul_float_l 0.035 w) as [[t Ht] | Ht].
  - clear Hms.
    unfold result, get_spent_calories, SportsWalking_get_spent_calories.
    unfold get_mean_speed, Training_get_mean_speed, get_distance,
      Training_get_distance, Spec.walking_calories, squared.
    unfold mbind, attr, attr_opt, class_attr, eval, lift2, value.
    cbn. unfold SportsWalkingConst.CALORIES_WEIGHT_FIRST_MULTIPLIER.
    rewrite Ht. run_method; rewrite Ht; run_method.
  - assert (Hl : result (get_spent_calories libm_pow) (SportsWalking a d w h)
                 = Raise OverflowError).
    { unfold result, get_spent_calories, SportsWalking_get_spent_calories.
      unfold mbind, attr, eval. cbn.
      unfold SportsWalkingConst.CALORIES_WEIGHT_FIRST_MULTIPLIER.
      rewrite Ht. reflexivity. }
    rewrite Hl.
    destruct Hms as [[f ->] | ->]; [ | reflexivity ].
    cbn [bind]. unfold Spec.walking_calories, squared, lift2, value.
    cbn [bind]. rewrite Ht. reflexivity.
Qed.

(** ** Order of floats and distances of integer step counts *)














(** * Properties of the specification *)

(** ** The message of a package *)

(** C1 (as stated, refuted).  The message of the running package
    [("RUN", [15000, 1, 75])] is not the one with 741.825 kcal,
    whatever the C library. *)
Lemma message_RUN_is_not_741_825 :
  ~ (exists libm_pow,
        message_of libm_pow "RUN" [Int 15000; Int 1; Int 75]
        = Ok "Тип тренировки: Running; Длительность: 1.000 ч.; Дистанция: 9.750 км; Ср. скорость: 9.750 км/ч; Потрачено ккал: 741.825."%string).
Proof.
  intros [libm_pow H]. vm_compute in H. discriminate H.
Qed.

(** C1 (amended).  For the record built by
    [read_package("RUN", [15000, 1, 75])] the string returned by
    [show_training_info().get_message()] is exactly the message with
    duration 1.000, distance 9.750, speed 9.750 and 797.805 kcal. *)
Theorem message_RUN_15000_1_75 :
  forall libm_pow,
    message_of libm_pow "RUN" [Int 15000; Int 1; Int 75]
    = Ok "Тип тренировки: Running; Длительность: 1.000 ч.; Дистанция: 9.750 км; Ср. скорость: 9.750 км/ч; Потрачено ккал: 797.805."%string.
Proof.
  intros libm_pow. vm_compute. reflexivity.
Qed.

(** The three lines the [__main__] block prints, on a C library whose
    [pow] rounds the square correctly. *)
Example main_block_output :
  map (fun p => message_of pow_by_product (fst p) (snd p)) packages
  = [ Ok "Тип тренировки: Swimming; Длительность: 1.000 ч.; Дистанция: 0.994 км; Ср. скорость: 1.000 км/ч; Потрачено ккал: 336.000."%string;
      Ok "Тип тренировки: Running; Длительность: 1.000 ч.; Дистанция: 9.750 км; Ср. скорость: 9.750 км/ч; Потрачено ккал: 797.805."%string;
      Ok "Тип тренировки: SportsWalking; Длительность: 1.000 ч.; Дистанция: 5.850 км; Ср. скорость: 5.850 км/ч; Потрачено ккал: 349.252."%string ].
Proof. vm_compute. reflexivity. Qed.

(** ** Distance and mean speed *)

(** C3.  For every record of every variant [get_distance()] is
    [action * LEN_STEP / 1000], with [LEN_STEP] 0.65 for Running and
    SportsWalking and 1.38 for Swimming; the outcome is a float, or the
    overflow of an [action] beyond the float range. *)
Theorem get_distance_formula :
  (forall a d w,
      result get_distance (Running a d w) = (a * Float 0.65 / Int 1000)%py)
  /\ (forall a d w h,
        result get_distance (SportsWalking a d w h)
        = (a * Float 0.65 / Int 1000)%py)
  /\ (forall a d w lp cp,
        result get_distance (Swimming a d w lp cp)
        = (a * Float 1.38 / Int 1000)%py)
  /\ (forall self,
        result get_distance self
        = Spec.distance (action self) (Spec.LEN_STEP (class_of self))
        /\ float_or_overflow (result get_distance self)).
Proof.
  repeat split; intros;
    first [ apply get_distance_float_or_overflow
          | rewrite result_get_distance, ?LEN_STEP_spec; reflexivity ].
Qed.

(** C2.  With a nonzero duration, [get_mean_speed()] of a Swimming
    record is [length_pool * count_pool / 1000 / duration], whatever
    the action, while its [get_distance()] is the step-based
    [action * 1.38 / 1000]; [get_mean_speed()] of a Running or
    SportsWalking record is [get_distance() / duration].  None of them
    divides by zero. *)
Theorem get_mean_speed_formulas :
  forall a d w : num,
    is_zero d = false ->
    (forall lp cp,
        result get_mean_speed (Swimming a d w lp cp)
        = (lp * cp / Int 1000 / d)%py
        /\ (forall a',
               result get_mean_speed (Swimming a' d w lp cp)
               = result get_mean_speed (Swimming a d w lp cp))
        /\ result get_distance (Swimming a d w lp cp)
           = (a * Float 1.38 / Int 1000)%py
        /\ float_or_overflow (result get_mean_speed (Swimming a d w lp cp)))
    /\ (result get_mean_speed (Running a d w)
        = (dist <- result get_distance (Running a d w) ;; (dist / d)%py)%outcome
        /\ float_or_overflow (result get_mean_speed (Running a d w)))
    /\ (forall h,
           result get_mean_speed (SportsWalking a d w h)
           = (dist <- result get_distance (SportsWalking a d w h) ;;
              (dist / d)%py)%outcome
           /\ float_or_overflow (result get_mean_speed (SportsWalking a d w h))).
Proof.
  intros a d w Hd. split; [ | split ].
  - intros lp cp. repeat split.
    + apply result_Swimming_get_mean_speed.
    + intros a'. now rewrite !result_Swimming_get_mean_speed.
    + apply result_get_distance.
    + now apply get_mean_speed_float_or_overflow.
  - split.
    + exact (result_Training_get_mean_speed (Running a d w)).
    + now apply get_mean_speed_float_or_overflow.
  - intros h. split.
    + exact (result_Training_get_mean_speed (SportsWalking a d w h)).
    + now apply get_mean_speed_float_or_overflow.
Qed.

Lemma get_mean_speed_formulas_witness :
  is_zero (Int 1) = false
  /\ result get_mean_speed (Swimming (Int 720) (Int 1) (Int 80) (Int 25) (Int 40))
     = (Int 25 * Int 40 / Int 1000 / Int 1)%py.
Proof.
  split; [ reflexivity | ].
  exact (proj1 (proj1 (get_mean_speed_formulas (Int 720) (Int 1) (Int 80)
                         eq_refl) (Int 25) (Int 40))).
Defined.

(** ** Spent calories *)

(** C4.  With a nonzero duration, [get_spent_calories()] of a Running
    record is [(18 * mean_speed + 1.79) * weight / 1000 * duration * 60]
    on the mean speed [get_mean_speed()] returns; it is a float unless a
    conversion overflows. *)
Theorem running_calories_formula :
  forall libm_pow (a d w : num),
    is_zero d = false ->
    result (get_spent_calories libm_pow) (Running a d w)
    = (mean_speed <- result get_mean_speed (Running a d w) ;;
       ((Int 18 * mean_speed + Float 1.79) * w / Int 1000 * d * Int 60)%py)%outcome
    /\ float_or_overflow (result (get_spent_calories libm_pow) (Running a d w)).
Proof.
  intros libm_pow a d w Hd. split.
  - exact (result_Running_get_spent_calories libm_pow a d w).
  - rewrite result_Running_get_spent_calories.
    apply float_or_overflow_bind.
    + now apply get_mean_speed_float_or_overflow.
    + intros f. apply running_calories_float_or_overflow.
Qed.

Lemma running_calories_formula_witness :
  is_zero (Int 1) = false
  /\ float_or_overflow
       (result (get_spent_calories pow_by_product)
          (Running (Int 15000) (Int 1) (Int 75))).
Proof.
  split; [ reflexivity | ].
  exact (proj2 (running_calories_formula pow_by_product
                  (Int 15000) (Int 1) (Int 75) eq_refl)).
Defined.

(** C5.  With a nonzero duration and a nonzero height,
    [get_spent_calories()] of a SportsWalking record is
    [(0.035 * weight + (mean_speed * 0.278)^2 / height * 100 * 0.029
      * weight) * duration * 60] on the mean speed [get_mean_speed()]
    returns; it is a float unless a conversion or the square
    overflows. *)
Theorem walking_calories_formula :
  forall libm_pow (a d w h : num),
    is_zero d = false ->
    is_zero h = false ->
    result (get_spent_calories libm_pow) (SportsWalking a d w h)
    = (mean_speed <- result get_mean_speed (SportsWalking a d w h) ;;
       ((Float 0.035 * w
         + squared libm_pow (mean_speed * Float 0.278) / h
           * Int 100 * Float 0.029 * w)
        * d * Int 60)%py)%outcome
    /\ float_or_overflow
         (result (get_spent_calories libm_pow) (SportsWalking a d w h)).
Proof.
  intros libm_pow a d w h Hd Hh. split.
  - exact (result_SportsWalking_get_spent_calories libm_pow a d w h Hd).
  - rewrite result_SportsWalking_get_spent_calories by exact Hd.
    apply float_or_overflow_bind.
    + now apply get_mean_speed_float_or_overflow.
    + intros f. now apply walking_calories_float_or_overflow.
Qed.

Lemma walking_calories_formula_witness :
  is_zero (Int 1) = false
  /\ is_zero (Int 180) = false
  /\ float_or_overflow
       (result (get_spent_calories pow_by_product)
          (SportsWalking (Int 9000) (Int 1) (Int 75) (Int 180))).
Proof.
  split; [ reflexivity | split; [ reflexivity | ] ].
  exact (proj2 (walking_calories_formula pow_by_product
                  (Int 9000) (Int 1) (Int 75) (Int 180) eq_refl eq_refl)).
Defined.

(** C6.  With a nonzero duration, [get_spent_calories()] of a Swimming
    record is [(mean_speed + 1.1) * 2 * weight * duration], where
    [mean_speed] is the lap-based
    [length_pool * count_pool / 1000 / duration] of the overridden
    [get_mean_speed()]. *)
Theorem swimming_calories_formula :
  forall libm_pow (a d w lp cp : num),
    is_zero d = false ->
    result (get_spent_calories libm_pow) (Swimming a d w lp cp)
    = (mean_speed <- (lp * cp / Int 1000 / d)%py ;;
       ((mean_speed + Float 1.1) * Int 2 * w * d)%py)%outcome
    /\ result get_mean_speed (Swimming a d w lp cp)
       = (lp * cp / Int 1000 / d)%py
    /\ float_or_overflow
         (result (get_spent_calories libm_pow) (Swimming a d w lp cp)).
Proof.
  intros libm_pow a d w lp cp Hd.
  pose proof (result_Swimming_get_spent_calories libm_pow a d w lp cp) as Hc.
  pose proof (result_Swimming_get_mean_speed a d w lp cp) as Hm.
  rewrite Hm in Hc. repeat split.
  - exact Hc.
  - exact Hm.
  - rewrite Hc. apply float_or_overflow_bind.
    + now apply swimming_mean_speed_float_or_overflow.
    + intros f. apply swimming_calories_float_or_overflow.
Qed.

Lemma swimming_calories_formula_witness :
  is_zero (Int 1) = false
  /\ float_or_overflow
       (result (get_spent_calories pow_by_product)
          (Swimming (Int 720) (Int 1) (Int 80) (Int 25) (Int 40))).
Proof.
  split; [ reflexivity | ].
  exact (proj2 (proj2 (swimming_calories_formula pow_by_product
                         (Int 720) (Int 1) (Int 80) (Int 25) (Int 40)
                         eq_refl))).
Defined.

(** ** read_package *)

Lemma lookup_unknown (code : string) :
  code <> "RUN"%string -> code <> "WLK"%string -> code <> "SWM"%string ->
  lookup code training_types = None.
Proof.
  intros Hr Hw Hs. unfold training_types. cbn [lookup].
  apply String.eqb_neq in Hr, Hw, Hs.
  rewrite Hr, Hw, Hs. reflexivity.
Qed.

(** C7.  For every activity code other than "RUN", "WLK" and "SWM" and
    any argument list, [read_package] raises [ValueError] with its
    message and builds no record; for each of the three codes it builds
    the corresponding class from the arguments in order. *)
Theorem read_package_dispatch :
  (forall code data,
      code <> "RUN"%string -> code <> "WLK"%string -> code <> "SWM"%string ->
      read_package code data
      = Raise (ValueError "Неправильный тип тренировки.")
      /\ returns (read_package code data) = false)
  /\ (forall a d w,
        read_package "RUN" [a; d; w] = Ok (Running a d w))
  /\ (forall a d w h,
        read_package "WLK" [a; d; w; h] = Ok (SportsWalking a d w h))
  /\ (forall a d w lp cp,
        read_package "SWM" [a; d; w; lp; cp] = Ok (Swimming a d w lp cp)).
Proof.
  split; [ | repeat split ].
  intros code data Hr Hw Hs.
  unfold read_package. rewrite (lookup_unknown code Hr Hw Hs).
  split; reflexivity.
Qed.

Lemma read_package_dispatch_witness :
  read_package "XYZ" [Int 1; Int 2; Int 3]
  = Raise (ValueError "Неправильный тип тренировки.").
Proof.
  refine (proj1 (proj1 read_package_dispatch "XYZ"%string
                   [Int 1; Int 2; Int 3] _ _ _)); discriminate.
Defined.

(** ** The base class *)

(** C8.  [get_spent_calories()] on an object of the base class
    [Training] always raises [NotImplementedError], which is not the
    [ValueError] of [read_package]; it never returns a value. *)
Theorem base_get_spent_calories_not_implemented :
  forall libm_pow (a d w : num),
    result (get_spent_calories libm_pow) (BaseTraining a d w)
    = Raise (NotImplementedError
               "В дочерних классах не описан метод get_spent_calories.")
    /\ returns (result (get_spent_calories libm_pow) (BaseTraining a d w))
       = false
    /\ (forall msg msg', NotImplementedError msg <> ValueError msg').
Proof.
  intros libm_pow a d w. repeat split. discriminate.
Qed.

(** ** Distance against the step count *)




(** ** Methods and the record *)

(** C10.  For every record of every class, a call of [get_distance()],
    [get_mean_speed()], [get_spent_calories()] or
    [show_training_info()] leaves the record, with all its fields, as
    it was, and a second call of the same method on it gives the
    outcome of the first. *)
Theorem methods_leave_record_unchanged :
  forall libm_pow (self : Training),
    (after get_distance self = self
     /\ result get_distance (after get_distance self)
        = result get_distance self)
    /\ (after get_mean_speed self = self
        /\ result get_mean_speed (after get_mean_speed self)
           = result get_mean_speed self)
    /\ (after (get_spent_calories libm_pow) self = self
        /\ result (get_spent_calories libm_pow)
             (after (get_spent_calories libm_pow) self)
           = result (get_spent_calories libm_pow) self)
    /\ (after (show_training_info libm_pow) self = self
        /\ result (show_training_info libm_pow)
             (after (show_training_info libm_pow) self)
           = result (show_training_info libm_pow) self).
Proof.
  intros libm_pow self.
  pose proof (readonly_twice get_distance self readonly_get_distance)
    as [Hd1 [Hd2 _]].
  pose proof (readonly_twice get_mean_speed self readonly_get_mean_speed)
    as [Hm1 [Hm2 _]].
  pose proof (readonly_twice (get_spent_calories libm_pow) self
                (readonly_get_spent_calories libm_pow)) as [Hc1 [Hc2 _]].
  pose proof (readonly_twice (show_training_info libm_pow) self
                (readonly_show_training_info libm_pow)) as [Hs1 [Hs2 _]].
  repeat split; assumption.
Qed.

(** ** Arithmetic outcomes of the getters *)

Lemma float_or_overflow_arith (c : outcome num) :
  float_or_overflow c -> arith_outcome c.
Proof. intros [[f ->] | ->]; exact I. Qed.

Lemma arith_outcome_bind (c : outcome num) (k : num -> outcome num) :
  arith_outcome c ->
  (forall f, arith_outcome (k (Float f))) ->
  arith_outcome (bind c k).
Proof.
  destruct c as [[z | f] | e]; cbn; intros Hc Hk;
    [contradiction | apply Hk | exact Hc].
Qed.

Lemma arith_outcome_ok (c : outcome num) (v : num) :
  arith_outcome c -> c = Ok v -> exists f, v = Float f.
Proof.
  intros Hc ->. destruct v as [z | f]; [contradiction | eexists; reflexivity].
Qed.

Lemma arith_outcome_raise (c : outcome num) :
  arith_outcome c -> returns c = false ->
  c = Raise ZeroDivisionError \/ c = Raise OverflowError.
Proof.
  destruct c as [v | e]; cbn; intros Hc Hr; [discriminate |].
  destruct e; try contradiction; auto.
Qed.

Lemma int_to_float_0 : int_to_float 0 = Ok 0%float.
Proof. vm_compute. reflexivity. Qed.

Lemma as_float_zero (y : num) :
  is_zero y = true -> exists g, as_float y = Ok g.
Proof.
  destruct y as [z | g]; cbn [is_zero as_float]; intros H.
  - apply Z.eqb_eq in H. subst z. eexists. apply int_to_float_0.
  - eexists. reflexivity.
Qed.

Lemma truediv_float_zero (f : float) (y : num) :
  is_zero y = true -> truediv (Float f) y = Raise ZeroDivisionError.
Proof.
  intros Hy. unfold truediv. cbn [as_float bind].
  destruct (as_float_zero y Hy) as [g ->]. cbn [bind].
  rewrite Hy. reflexivity.
Qed.

Lemma truediv_arith (x y : num) : arith_outcome (truediv x y).
Proof.
  destruct (is_zero y) eqn:Hy.
  - unfold truediv. destruct x as [a | f], y as [b | g].
    + change (b =? 0) with (is_zero (Int b)). rewrite Hy. exact I.
    + destruct (as_float_cases (Int a)) as [[q ->] | ->]; [| exact I].
      cbn [bind as_float]. rewrite Hy. exact I.
    + fold (truediv (Float f) (Int b)). now rewrite truediv_float_zero.
    + fold (truediv (Float f) (Float g)). now rewrite truediv_float_zero.
  - apply float_or_overflow_arith. now apply truediv_nonzero.
Qed.

Lemma mul_error (x y : num) (e : exn) :
  mul x y = Raise e -> e = OverflowError.
Proof.
  destruct x as [a | f], y as [b | g]; intros H.
  - discriminate H.
  - destruct (mul_float_r (Int a) g) as [[q Hq] | Hq]; congruence.
  - destruct (mul_float_l f (Int b)) as [[q Hq] | Hq]; congruence.
  - destruct (mul_float_l f (Float g)) as [[q Hq] | Hq]; congruence.
Qed.

Lemma get_distance_arith (self : Training) :
  arith_outcome (result get_distance self).
Proof. apply float_or_overflow_arith, get_distance_float_or_overflow. Qed.

Lemma swimming_mean_speed_arith (lp cp d : num) :
  arith_outcome (Spec.swimming_mean_speed lp cp d).
Proof.
  unfold Spec.swimming_mean_speed.
  rewrite lift2_value, !lift2_bind_l.
  destruct (mul lp cp) as [m | e] eqn:Hm; cbn [bind].
  - apply arith_outcome_bind; [ | intros f ]; apply truediv_arith.
  - apply mul_error in Hm. subst e. exact I.
Qed.

Lemma get_mean_speed_arith (self : Training) :
  arith_outcome (result get_mean_speed self).
Proof.
  assert (Ht : arith_outcome (result Training_get_mean_speed self)).
  { rewrite result_Training_get_mean_speed.
    apply arith_outcome_bind; [ apply get_distance_arith | ].
    intros f. unfold Spec.mean_speed. rewrite lift2_value.
    apply truediv_arith. }
  destruct self as [a d w | a d w | a d w h | a d w lp cp]; try exact Ht.
  rewrite result_Swimming_get_mean_speed. apply swimming_mean_speed_arith.
Qed.

(** [SportsWalking.get_spent_calories] in the order the source
    evaluates it. *)
Lemma result_SportsWalking_in_source_order
  (libm_pow : float -> float -> float) (a d w h : num) :
  result (get_spent_calories libm_pow) (SportsWalking a d w h)
  = (first <- mul (Float 0.035) w ;;
     ms <- result get_mean_speed (SportsWalking a d w h) ;;
     y <- mul ms (Float 0.278) ;;
     y <- pow2 libm_pow y ;;
     y <- truediv y h ;;
     y <- mul y (Int 100) ;;
     y <- mul y (Float 0.029) ;;
     second <- mul y w ;;
     x <- add first second ;;
     x <- mul x d ;;
     mul x (Int 60))%outcome.
Proof.
  unfold result, get_spent_calories, SportsWalking_get_spent_calories.
  unfold get_mean_speed, Training_get_mean_speed, get_distance,
    Training_get_distance.
  unfold mbind, attr, attr_opt, class_attr, eval.
  run_method.
Qed.

Lemma get_spent_calories_arith
  (libm_pow : float -> float -> float) (self : Training) :
  class_of self <> ClassTraining ->
  arith_outcome (result (get_spent_calories libm_pow) self).
Proof.
  intros Hc.
  destruct self as [a d w | a d w | a d w h | a d w lp cp].
  - now contradiction Hc.
  - rewrite result_Running_get_spent_calories.
    apply arith_outcome_bind; [ apply get_mean_speed_arith | ].
    intros f. apply float_or_overflow_arith, running_calories_float_or_overflow.
  - rewrite result_SportsWalking_in_source_order.
    apply arith_outcome_bind;
      [ apply float_or_overflow_arith, mul_float_l | intros first ].
    apply arith_outcome_bind; [ apply get_mean_speed_arith | intros ms ].
    apply arith_outcome_bind;
      [ apply float_or_overflow_arith, mul_float_l | intros y1 ].
    apply arith_outcome_bind;
      [ apply float_or_overflow_arith, pow2_float | intros y2 ].
    apply arith_outcome_bind; [ apply truediv_arith | intros y3 ].
    do 3 (apply arith_outcome_bind;
          [ apply float_or_overflow_arith, mul_float_l | intros ? ]).
    apply arith_outcome_bind;
      [ apply float_or_overflow_arith, add_float_l | intros x1 ].
    apply arith_outcome_bind;
      [ apply float_or_overflow_arith, mul_float_l | intros x2 ].
    apply float_or_overflow_arith, mul_float_l.
  - rewrite result_Swimming_get_spent_calories.
    apply arith_outcome_bind; [ apply get_mean_speed_arith | ].
    intros f. apply float_or_overflow_arith, swimming_calories_float_or_overflow.
Qed.

(** ** Zero duration and zero height *)

Lemma bind_not_returns {A B : Type} (c : outcome A) (k : A -> outcome B) :
  (forall a, c = Ok a -> returns (k a) = false) ->
  returns (bind c k) = false.
Proof. destruct c as [a | e]; cbn; intros H; [now apply H | reflexivity]. Qed.

Lemma get_mean_speed_zero_duration (self : Training) :
  is_zero (duration self) = true ->
  returns (result get_mean_speed self) = false.
Proof.
  intros Hd.
  assert (Ht : returns (result Training_get_mean_speed self) = false).
  { rewrite result_Training_get_mean_speed.
    apply bind_not_returns. intros dist Hdist.
    destruct (arith_outcome_ok _ _ (get_distance_arith self) Hdist) as [f ->].
    unfold Spec.mean_speed. rewrite lift2_value.
    now rewrite truediv_float_zero. }
  destruct self as [a d w | a d w | a d w h | a d w lp cp]; try exact Ht.
  rewrite result_Swimming_get_mean_speed. unfold Spec.swimming_mean_speed.
  rewrite lift2_value, !lift2_bind_l.
  apply bind_not_returns. intros km Hkm.
  destruct (mul lp cp) as [m | e]; cbn [bind] in Hkm; [ | discriminate Hkm ].
  destruct (arith_outcome_ok _ _ (truediv_arith m Spec.M_IN_KM) Hkm) as [f ->].
  now rewrite truediv_float_zero.
Qed.

Lemma get_spent_calories_zero_duration
  (libm_pow : float -> float -> float) (self : Training) :
  is_zero (duration self) = true ->
  returns (result (get_spent_calories libm_pow) self) = false.
Proof.
  intros Hd. pose proof (get_mean_speed_zero_duration self Hd) as Hms.
  destruct self as [a d w | a d w | a d w h | a d w lp cp].
  - reflexivity.
  - rewrite result_Running_get_spent_calories.
    destruct (result get_mean_speed (Running a d w)); [discriminate Hms | reflexivity].
  - rewrite result_SportsWalking_in_source_order.
    apply bind_not_returns. intros first _.
    destruct (result get_mean_speed (SportsWalking a d w h));
      [discriminate Hms | reflexivity].
  - rewrite result_Swimming_get_spent_calories.
    destruct (result get_mean_speed (Swimming a d w lp cp));
      [discriminate Hms | reflexivity].
Qed.

Lemma walking_calories_zero_height
  (libm_pow : float -> float -> float) (a d w h : num) :
  is_zero h = true ->
  returns (result (get_spent_calories libm_pow) (SportsWalking a d w h)) = false.
Proof.
  intros Hh. rewrite result_SportsWalking_in_source_order.
  apply bind_not_returns. intros first _.
  apply bind_not_returns. intros ms Hms.
  destruct (arith_outcome_ok _ _ (get_mean_speed_arith _) Hms) as [fms ->].
  apply bind_not_returns. intros y1 Hy1.
  destruct (arith_outcome_ok _ _
              (float_or_overflow_arith _ (mul_float_l fms (Float 0.278))) Hy1)
    as [f1 ->].
  apply bind_not_returns. intros y2 Hy2.
  destruct (arith_outcome_ok _ _
              (float_or_overflow_arith _ (pow2_float libm_pow f1)) Hy2)
    as [f2 ->].
  now rewrite truediv_float_zero.
Qed.

(** ** show_training_info and main *)

Lemma result_mbind_readonly {A B : Type}
  (c : method A) (k : A -> method B) (self : Training) :
  readonly c ->
  result (mbind c k) self = bind (result c self) (fun a => result (k a) self).
Proof.
  intros Hc. specialize (Hc self). unfold result, after, mbind in *.
  destruct (c self) as [[a | e] self']; cbn in *; subst self'; reflexivity.
Qed.

Lemma show_training_info_result
  (libm_pow : float -> float -> float) (self : Training) :
  result (show_training_info libm_pow) self
  = (dist <- result get_distance self ;;
     speed <- result get_mean_speed self ;;
     cal <- result (get_spent_calories libm_pow) self ;;
     Ok (InfoMessage.Build (class_name (class_of self)) (duration self)
           dist speed cal))%outcome.
Proof.
  unfold show_training_info.
  rewrite (result_mbind_readonly (class_attr class_name))
    by apply readonly_class_attr.
  cbn [bind result class_attr fst].
  rewrite (result_mbind_readonly (attr duration)) by apply readonly_attr.
  cbn [bind result attr fst].
  rewrite (result_mbind_readonly get_distance) by apply readonly_get_distance.
  destruct (result get_distance self) as [dist | e]; cbn [bind]; [ | reflexivity ].
  rewrite (result_mbind_readonly get_mean_speed)
    by apply readonly_get_mean_speed.
  destruct (result get_mean_speed self) as [speed | e]; cbn [bind];
    [ | reflexivity ].
  rewrite (result_mbind_readonly (get_spent_calories libm_pow))
    by apply readonly_get_spent_calories.
  destruct (result (get_spent_calories libm_pow) self) as [cal | e];
    cbn [bind]; reflexivity.
Qed.

Lemma truediv_float_converts (f : float) (y v : num) :
  truediv (Float f) y = Ok v -> exists g, as_float y = Ok g.
Proof.
  unfold truediv. cbn [as_float bind].
  destruct (as_float y) as [g | e]; cbn [bind]; intros H;
    [eexists; reflexivity | discriminate H].
Qed.

Lemma get_mean_speed_duration_converts (self : Training) (v : num) :
  result get_mean_speed self = Ok v ->
  exists g, as_float (duration self) = Ok g.
Proof.
  assert (Ht : result Training_get_mean_speed self = Ok v ->
               exists g, as_float (duration self) = Ok g).
  { rewrite result_Training_get_mean_speed.
    destruct (result get_distance self) as [dist | e] eqn:Hdist; cbn [bind];
      [ | discriminate ].
    destruct (arith_outcome_ok _ _ (get_distance_arith self) Hdist) as [f ->].
    unfold Spec.mean_speed. rewrite lift2_value.
    apply truediv_float_converts. }
  destruct self as [a d w | a d w | a d w h | a d w lp cp]; try exact Ht.
  rewrite result_Swimming_get_mean_speed. unfold Spec.swimming_mean_speed.
  rewrite lift2_value, !lift2_bind_l.
  destruct (mul lp cp) as [m | e]; cbn [bind]; [ | discriminate ].
  destruct (truediv m Spec.M_IN_KM) as [km | e] eqn:Hkm; cbn [bind];
    [ | discriminate ].
  destruct (arith_outcome_ok _ _ (truediv_arith m Spec.M_IN_KM) Hkm) as [f ->].
  apply truediv_float_converts.
Qed.

Lemma get_message_returns (tt : string) (d : num) (g fd fs fc : float) :
  as_float d = Ok g ->
  exists line,
    InfoMessage.get_message
      (InfoMessage.Build tt d (Float fd) (Float fs) (Float fc)) = Ok line.
Proof.
  intros Hd. unfold InfoMessage.get_message, format_3f.
  cbn [InfoMessage.duration InfoMessage.distance InfoMessage.speed
       InfoMessage.calories InfoMessage.training_type as_float bind].
  rewrite Hd. cbn [bind]. eexists. reflexivity.
Qed.

Lemma show_training_info_not_base
  (libm_pow : float -> float -> float) (self : Training) (info : InfoMessage.t) :
  result (show_training_info libm_pow) self = Ok info ->
  class_of self <> ClassTraining.
Proof.
  rewrite show_training_info_result. intros H Hc.
  destruct self as [a d w | a d w | a d w h | a d w lp cp];
    try discriminate Hc.
  destruct (result get_distance (BaseTraining a d w)); [ | discriminate H ].
  destruct (result get_mean_speed (BaseTraining a d w)); discriminate H.
Qed.

Lemma show_training_info_inv
  (libm_pow : float -> float -> float) (self : Training) (info : InfoMessage.t) :
  result (show_training_info libm_pow) self = Ok info ->
  exists fd fs fc,
    result get_distance self = Ok (Float fd)
    /\ result get_mean_speed self = Ok (Float fs)
    /\ result (get_spent_calories libm_pow) self = Ok (Float fc)
    /\ info = InfoMessage.Build (class_name (class_of self)) (duration self)
                (Float fd) (Float fs) (Float fc).
Proof.
  intros H. pose proof (show_training_info_not_base _ _ _ H) as Hc.
  rewrite show_training_info_result in H.
  destruct (result get_distance self) as [dist | e] eqn:Hdist;
    [ | discriminate H ].
  destruct (result get_mean_speed self) as [speed | e] eqn:Hspeed;
    [ | discriminate H ].
  destruct (result (get_spent_calories libm_pow) self) as [cal | e] eqn:Hcal;
    [ | discriminate H ].
  cbn [bind] in H. injection H as <-.
  destruct (arith_outcome_ok _ _ (get_distance_arith self) Hdist) as [fd ->].
  destruct (arith_outcome_ok _ _ (get_mean_speed_arith self) Hspeed) as [fs ->].
  destruct (arith_outcome_ok _ _ (get_spent_calories_arith libm_pow self Hc) Hcal)
    as [fc ->].
  exists fd, fs, fc. repeat split; reflexivity.
Qed.

Lemma main_returns
  (libm_pow : float -> float -> float) (self : Training) (info : InfoMessage.t) :
  result (show_training_info libm_pow) self = Ok info ->
  exists line,
    InfoMessage.get_message info = Ok line /\ main libm_pow self = Ok line.
Proof.
  intros H. unfold main. rewrite H. cbn [bind].
  destruct (show_training_info_inv _ _ _ H)
    as [fd [fs [fc [Hd [Hs [Hc ->]]]]]].
  destruct (get_mean_speed_duration_converts self _ Hs) as [g Hg].
  destruct (get_message_returns (class_name (class_of self)) (duration self)
              g fd fs fc Hg) as [line Hline].
  exists line. split; exact Hline.
Qed.

(** ** read_package *)

Lemma read_package_inv (code : string) (data : list num) (t : Training) :
  read_package code data = Ok t ->
  (code = "RUN"%string
   /\ exists a d w, data = [a; d; w] /\ t = Running a d w)
  \/ (code = "WLK"%string
      /\ exists a d w h, data = [a; d; w; h] /\ t = SportsWalking a d w h)
  \/ (code = "SWM"%string
      /\ exists a d w lp cp,
           data = [a; d; w; lp; cp] /\ t = Swimming a d w lp cp).
Proof.
  unfold read_package, training_types. cbn [lookup].
  destruct (String.eqb code "RUN") eqn:Er.
  { apply String.eqb_eq in Er. intros H. left. split; [exact Er | ].
    destruct data as [| a [| d [| w [| x rest]]]]; try discriminate H.
    injection H as <-. exists a, d, w. split; reflexivity. }
  destruct (String.eqb code "WLK") eqn:Ew.
  { apply String.eqb_eq in Ew. intros H. right. left. split; [exact Ew | ].
    destruct data as [| a [| d [| w [| h [| x rest]]]]]; try discriminate H.
    injection H as <-. exists a, d, w, h. split; reflexivity. }
  destruct (String.eqb code "SWM") eqn:Es.
  { apply String.eqb_eq in Es. intros H. right. right. split; [exact Es | ].
    destruct data as [| a [| d [| w [| lp [| cp [| x rest]]]]]];
      try discriminate H.
    injection H as <-. exists a, d, w, lp, cp. split; reflexivity. }
  discriminate.
Qed.

Lemma Running_new_arity (data : list num) :
  List.length data <> 3%nat -> Running_new data = Raise TypeError.
Proof.
  destruct data as [| a [| d [| w [| x rest]]]]; cbn; intros H;
    try reflexivity; now contradiction H.
Qed.

Lemma SportsWalking_new_arity (data : list num) :
  List.length data <> 4%nat -> SportsWalking_new data = Raise TypeError.
Proof.
  destruct data as [| a [| d [| w [| h [| x rest]]]]]; cbn; intros H;
    try reflexivity; now contradiction H.
Qed.

Lemma Swimming_new_arity (data : list num) :
  List.length data <> 5%nat -> Swimming_new data = Raise TypeError.
Proof.
  destruct data as [| a [| d [| w [| lp [| cp [| x rest]]]]]]; cbn; intros H;
    try reflexivity; now contradiction H.
Qed.

(** ** Values on fields within the float range *)

Lemma mul_float_l_ok (f : float) (y : num) (g : float) :
  as_float y = Ok g -> mul (Float f) y = Ok (Float (f * g)).
Proof. intros H. unfold mul. cbn [as_float bind]. now rewrite H. Qed.

Lemma mul_float_r_ok (x : num) (f g : float) :
  as_float x = Ok g -> mul x (Float f) = Ok (Float (g * f)).
Proof.
  intros H. destruct x as [z | x]; unfold mul; cbn [as_float bind] in *.
  - now rewrite H.
  - now injection H as ->.
Qed.

Lemma add_float_l_ok (f : float) (y : num) (g : float) :
  as_float y = Ok g -> add (Float f) y = Ok (Float (f + g)).
Proof. intros H. unfold add. cbn [as_float bind]. now rewrite H. Qed.

Lemma truediv_float_l_ok (f : float) (y : num) (g : float) :
  as_float y = Ok g -> is_zero y = false ->
  truediv (Float f) y = Ok (Float (f / g)).
Proof.
  intros H Hy. unfold truediv. cbn [as_float bind]. rewrite H. cbn [bind].
  now rewrite Hy.
Qed.

Lemma as_float_constants :
  as_float (Int 1000) = Ok 1000%float
  /\ as_float (Int 60) = Ok 60%float
  /\ as_float (Int 18) = Ok 18%float
  /\ as_float (Int 100) = Ok 100%float
  /\ as_float (Int 2) = Ok 2%float.
Proof. repeat split; vm_compute; reflexivity. Qed.

Ltac float_steps :=
  unfold lift2, value; cbn [bind];
  repeat first
    [ erewrite mul_float_l_ok by (eassumption || apply as_float_constants
                                  || reflexivity)
    | erewrite mul_float_r_ok by (eassumption || apply as_float_constants)
    | erewrite add_float_l_ok by (eassumption || reflexivity)
    | erewrite truediv_float_l_ok
        by (eassumption || apply as_float_constants || reflexivity)
    | progress cbn [bind] ].

Lemma distance_value (a : num) (fa ls : float) :
  as_float a = Ok fa ->
  Spec.distance a (Float ls) = Ok (Float (fa * ls / 1000)).
Proof.
  intros Ha. unfold Spec.distance, Spec.M_IN_KM. float_steps. reflexivity.
Qed.

Lemma running_values (libm_pow : float -> float -> float)
  (a d w : num) (fa fd fw : float) :
  as_float a = Ok fa -> as_float d = Ok fd -> as_float w = Ok fw ->
  is_zero d = false ->
  let dist := (fa * 0.65 / 1000)%float in
  let speed := (dist / fd)%float in
  result get_distance (Running a d w) = Ok (Float dist)
  /\ result get_mean_speed (Running a d w) = Ok (Float speed)
  /\ result (get_spent_calories libm_pow) (Running a d w)
     = Ok (Float ((18 * speed + 1.79) * fw / 1000 * fd * 60)).
Proof.
  intros Ha Hd Hw Hz dist speed.
  assert (Hdist : result get_distance (Running a d w) = Ok (Float dist)).
  { rewrite result_get_distance. now apply distance_value. }
  assert (Hspeed : result get_mean_speed (Running a d w) = Ok (Float speed)).
  { change (result get_mean_speed (Running a d w))
      with (result Training_get_mean_speed (Running a d w)).
    rewrite result_Training_get_mean_speed, Hdist. cbn [bind duration].
    unfold Spec.mean_speed. float_steps. reflexivity. }
  repeat split; try assumption.
  rewrite result_Running_get_spent_calories, Hspeed. cbn [bind].
  unfold Spec.running_calories, Spec.M_IN_KM, Spec.MIN_IN_HOUR.
  float_steps. reflexivity.
Qed.

Lemma swimming_values (libm_pow : float -> float -> float)
  (a d w lp cp : num) (km fd fw : float) :
  (lp * cp / Int 1000)%py = Ok (Float km) ->
  as_float d = Ok fd -> as_float w = Ok fw ->
  is_zero d = false ->
  let speed := (km / fd)%float in
  result get_mean_speed (Swimming a d w lp cp) = Ok (Float speed)
  /\ result (get_spent_calories libm_pow) (Swimming a d w lp cp)
     = Ok (Float ((speed + 1.1) * 2 * fw * fd)).
Proof.
  intros Hkm Hd Hw Hz speed.
  assert (Hspeed : result get_mean_speed (Swimming a d w lp cp)
                   = Ok (Float speed)).
  { rewrite result_Swimming_get_mean_speed. unfold Spec.swimming_mean_speed.
    change Spec.M_IN_KM with (Int 1000). rewrite Hkm.
    float_steps. reflexivity. }
  split; [exact Hspeed | ].
  rewrite result_Swimming_get_spent_calories, Hspeed. cbn [bind].
  unfold Spec.swimming_calories. float_steps. reflexivity.
Qed.

Lemma walking_values (libm_pow : float -> float -> float)
  (a d w h : num) (fa fd fw fh sq : float) :
  as_float a = Ok fa -> as_float d = Ok fd -> as_float w = Ok fw ->
  as_float h = Ok fh ->
  is_zero d = false -> is_zero h = false ->
  let speed := (fa * 0.65 / 1000 / fd)%float in
  float_pow2 libm_pow (speed * 0.278) = Ok sq ->
  result get_mean_speed (SportsWalking a d w h) = Ok (Float speed)
  /\ result (get_spent_calories libm_pow) (SportsWalking a d w h)
     = Ok (Float ((0.035 * fw + sq / fh * 100 * 0.029 * fw) * fd * 60)).
Proof.
  intros Ha Hd Hw Hh Hzd Hzh speed Hsq.
  assert (Hspeed : result get_mean_speed (SportsWalking a d w h)
                   = Ok (Float speed)).
  { change (result get_mean_speed (SportsWalking a d w h))
      with (result Training_get_mean_speed (SportsWalking a d w h)).
    rewrite result_Training_get_mean_speed, result_get_distance.
    cbn [action class_of LEN_STEP duration].
    rewrite (distance_value a fa 0.65 Ha). cbn [bind].
    unfold Spec.mean_speed. float_steps. reflexivity. }
  split; [exact Hspeed | ].
  rewrite result_SportsWalking_in_source_order, Hspeed.
  float_steps. unfold pow2. rewrite Hsq. float_steps. reflexivity.
Qed.

(** ** What the getters do not read *)

Lemma get_distance_reads (r1 r2 : Training) :
  action r1 = action r2 ->
  LEN_STEP (class_of r1) = LEN_STEP (class_of r2) ->
  result get_distance r1 = result get_distance r2.
Proof. intros Ha Hl. now rewrite !result_get_distance, Ha, Hl. Qed.

Lemma format_3f_error (x : num) (e : exn) :
  format_3f x = Raise e -> e = OverflowError.
Proof.
  unfold format_3f.
  destruct (as_float_cases x) as [[f ->] | ->]; cbn [bind]; congruence.
Qed.

Lemma get_message_error (info : InfoMessage.t) (e : exn) :
  InfoMessage.get_message info = Raise e -> e = OverflowError.
Proof.
  unfold InfoMessage.get_message.
  destruct (format_3f (InfoMessage.duration info)) eqn:H1; cbn [bind];
    [ | intros H; injection H as <-; eapply format_3f_error; eassumption ].
  destruct (format_3f (InfoMessage.distance info)) eqn:H2; cbn [bind];
    [ | intros H; injection H as <-; eapply format_3f_error; eassumption ].
  destruct (format_3f (InfoMessage.speed info)) eqn:H3; cbn [bind];
    [ | intros H; injection H as <-; eapply format_3f_error; eassumption ].
  destruct (format_3f (InfoMessage.calories info)) eqn:H4; cbn [bind];
    [ discriminate
    | intros H; injection H as <-; eapply format_3f_error; eassumption ].
Qed.

Lemma get_mean_speed_zero_division (self : Training) (dist : num) :
  is_zero (duration self) = true ->
  class_of self <> ClassSwimming ->
  result get_distance self = Ok dist ->
  result get_mean_speed self = Raise ZeroDivisionError.
Proof.
  intros Hd Hc Hdist.
  assert (Ht : result Training_get_mean_speed self = Raise ZeroDivisionError).
  { rewrite result_Training_get_mean_speed, Hdist. cbn [bind].
    destruct (arith_outcome_ok _ _ (get_distance_arith self) Hdist) as [f ->].
    unfold Spec.mean_speed. rewrite lift2_value.
    now apply truediv_float_zero. }
  destruct self as [a d w | a d w | a d w h | a d w lp cp]; try exact Ht.
  now contradiction Hc.
Qed.

Lemma show_training_info_needs_speed
  (libm_pow : float -> float -> float) (self : Training) :
  returns (result get_mean_speed self) = false ->
  returns (result (show_training_info libm_pow) self) = false
  /\ returns (main libm_pow self) = false.
Proof.
  intros H.
  assert (Hs : returns (result (show_training_info libm_pow) self) = false).
  { rewrite show_training_info_result.
    apply bind_not_returns. intros dist _.
    destruct (result get_mean_speed self); [discriminate H | reflexivity]. }
  split; [exact Hs | ].
  unfold main.
  destruct (result (show_training_info libm_pow) self);
    [discriminate Hs | reflexivity].
Qed.

Lemma show_training_info_needs_calories
  (libm_pow : float -> float -> float) (self : Training) :
  returns (result (get_spent_calories libm_pow) self) = false ->
  returns (result (show_training_info libm_pow) self) = false
  /\ returns (main libm_pow self) = false.
Proof.
  intros H.
  assert (Hs : returns (result (show_training_info libm_pow) self) = false).
  { rewrite show_training_info_result.
    apply bind_not_returns. intros dist _.
    apply bind_not_returns. intros speed _.
    destruct (result (get_spent_calories libm_pow) self);
      [discriminate H | reflexivity]. }
  split; [exact Hs | ].
  unfold main.
  destruct (result (show_training_info libm_pow) self);
    [discriminate Hs | reflexivity].
Qed.

(** * Further properties of the code *)

(** X1.  For a known code whose argument list has the wrong length,
    [read_package] raises [TypeError]: "RUN" takes three arguments,
    "WLK" four and "SWM" five. *)
Theorem read_package_wrong_arity :
  (forall data, List.length data <> 3%nat ->
                read_package "RUN" data = Raise TypeError)
  /\ (forall data, List.length data <> 4%nat ->
                   read_package "WLK" data = Raise TypeError)
  /\ (forall data, List.length data <> 5%nat ->
                   read_package "SWM" data = Raise TypeError).
Proof.
  repeat split; intros data H; unfold read_package; cbn [lookup training_types
    String.eqb Ascii.eqb Bool.eqb];
    [ now apply Running_new_arity
    | now apply SportsWalking_new_arity
    | now apply Swimming_new_arity ].
Qed.

Lemma read_package_wrong_arity_witness :
  read_package "RUN" [Int 1; Int 2] = Raise TypeError
  /\ read_package "WLK" [Int 9000; Int 1; Int 75] = Raise TypeError
  /\ read_package "SWM" [] = Raise TypeError.
Proof.
  split; [ | split ].
  - refine (proj1 read_package_wrong_arity [Int 1; Int 2] _).
    cbn; discriminate.
  - refine (proj1 (proj2 read_package_wrong_arity)
              [Int 9000; Int 1; Int 75] _).
    cbn; discriminate.
  - refine (proj2 (proj2 read_package_wrong_arity) [] _).
    cbn; discriminate.
Defined.

(** X2.  [read_package] returns a record only for one of the three
    codes with exactly as many arguments as the class takes, and the
    record holds those arguments in order. *)
Theorem read_package_success :
  forall (code : string) (data : list num) (t : Training),
    read_package code data = Ok t ->
    (code = "RUN"%string
     /\ exists a d w, data = [a; d; w] /\ t = Running a d w)
    \/ (code = "WLK"%string
        /\ exists a d w h, data = [a; d; w; h] /\ t = SportsWalking a d w h)
    \/ (code = "SWM"%string
        /\ exists a d w lp cp,
             data = [a; d; w; lp; cp] /\ t = Swimming a d w lp cp).
Proof. exact read_package_inv. Qed.

Lemma read_package_success_witness :
  read_package "WLK" [Int 9000; Int 1; Int 75; Int 180]
  = Ok (SportsWalking (Int 9000) (Int 1) (Int 75) (Int 180))
  /\ (("WLK" = "RUN"
       /\ exists a d w,
            [Int 9000; Int 1; Int 75; Int 180] = [a; d; w]
            /\ SportsWalking (Int 9000) (Int 1) (Int 75) (Int 180)
               = Running a d w)
      \/ ("WLK" = "WLK"
          /\ exists a d w h,
               [Int 9000; Int 1; Int 75; Int 180] = [a; d; w; h]
               /\ SportsWalking (Int 9000) (Int 1) (Int 75) (Int 180)
                  = SportsWalking a d w h)
      \/ ("WLK" = "SWM"
          /\ exists a d w lp cp,
               [Int 9000; Int 1; Int 75; Int 180] = [a; d; w; lp; cp]
               /\ SportsWalking (Int 9000) (Int 1) (Int 75) (Int 180)
                  = Swimming a d w lp cp))%string.
Proof.
  split; [ reflexivity | ].
  exact (read_package_success "WLK" [Int 9000; Int 1; Int 75; Int 180]
           (SportsWalking (Int 9000) (Int 1) (Int 75) (Int 180)) eq_refl).
Defined.

(** X3.  Two packages that build the same record are the same package:
    the code and the arguments can be read back from the record. *)
Theorem read_package_injective :
  forall (code1 code2 : string) (data1 data2 : list num) (t : Training),
    read_package code1 data1 = Ok t ->
    read_package code2 data2 = Ok t ->
    code1 = code2 /\ data1 = data2.
Proof.
  intros code1 code2 data1 data2 t H1 H2.
  apply read_package_inv in H1, H2.
  destruct H1 as [[-> [a [d [w [-> ->]]]]]
                 | [[-> [a [d [w [h [-> ->]]]]]]
                   | [-> [a [d [w [lp [cp [-> ->]]]]]]]]];
    destruct H2 as [[-> [a' [d' [w' [-> E]]]]]
                   | [[-> [a' [d' [w' [h' [-> E]]]]]]
                     | [-> [a' [d' [w' [lp' [cp' [-> E]]]]]]]]];
    try discriminate E; injection E as <-; subst; split; reflexivity.
Qed.

Lemma read_package_injective_witness :
  ("RUN" = "RUN")%string
  /\ [Int 15000; Int 1; Int 75] = [Int 15000; Int 1; Int 75].
Proof.
  exact (read_package_injective "RUN" "RUN"
           [Int 15000; Int 1; Int 75] [Int 15000; Int 1; Int 75]
           (Running (Int 15000) (Int 1) (Int 75)) eq_refl eq_refl).
Defined.

(** X4.  On a record of a concrete class each of [get_distance()],
    [get_mean_speed()] and [get_spent_calories()] returns a float or
    raises [ZeroDivisionError] or [OverflowError], nothing else; every
    record [read_package] builds is of a concrete class. *)
Theorem getters_return_float_or_arithmetic_error :
  (forall libm_pow (self : Training),
      class_of self <> ClassTraining ->
      arith_outcome (result get_distance self)
      /\ arith_outcome (result get_mean_speed self)
      /\ arith_outcome (result (get_spent_calories libm_pow) self))
  /\ (forall code data t,
         read_package code data = Ok t -> class_of t <> ClassTraining).
Proof.
  split.
  - intros libm_pow self Hc. repeat split.
    + apply get_distance_arith.
    + apply get_mean_speed_arith.
    + now apply get_spent_calories_arith.
  - intros code data t H.
    destruct (read_package_inv code data t H)
      as [[_ [a [d [w [_ ->]]]]]
         | [[_ [a [d [w [h [_ ->]]]]]]
           | [_ [a [d [w [lp [cp [_ ->]]]]]]]]]; discriminate.
Qed.

Lemma getters_return_float_or_arithmetic_error_witness :
  arith_outcome
    (result (get_spent_calories pow_by_product)
       (SportsWalking (Int 9000) (Int 0) (Int 75) (Int 180)))
  /\ class_of (Swimming (Int 720) (Int 1) (Int 80) (Int 25) (Int 40))
     <> ClassTraining.
Proof.
  split.
  - refine (proj2 (proj2 (proj1 getters_return_float_or_arithmetic_error
                            pow_by_product
                            (SportsWalking (Int 9000) (Int 0) (Int 75) (Int 180))
                            _))).
    discriminate.
  - exact (proj2 getters_return_float_or_arithmetic_error "SWM"%string
             [Int 720; Int 1; Int 80; Int 25; Int 40]
             (Swimming (Int 720) (Int 1) (Int 80) (Int 25) (Int 40)) eq_refl).
Defined.

(** X5.  When [show_training_info()] returns, the message object holds
    the class name, the duration of the record and the floats that
    [get_distance()], [get_mean_speed()] and [get_spent_calories()]
    return on that record. *)
Theorem show_training_info_fields :
  forall libm_pow (self : Training) (info : InfoMessage.t),
    result (show_training_info libm_pow) self = Ok info ->
    exists fd fs fc,
      result get_distance self = Ok (Float fd)
      /\ result get_mean_speed self = Ok (Float fs)
      /\ result (get_spent_calories libm_pow) self = Ok (Float fc)
      /\ info = InfoMessage.Build (class_name (class_of self)) (duration self)
                  (Float fd) (Float fs) (Float fc).
Proof. exact show_training_info_inv. Qed.

Lemma show_training_info_fields_witness :
  exists fd fs fc,
    result get_distance (Swimming (Int 720) (Int 1) (Int 80) (Int 25) (Int 40))
    = Ok (Float fd)
    /\ result get_mean_speed
         (Swimming (Int 720) (Int 1) (Int 80) (Int 25) (Int 40))
       = Ok (Float fs)
    /\ result (get_spent_calories pow_by_product)
         (Swimming (Int 720) (Int 1) (Int 80) (Int 25) (Int 40))
       = Ok (Float fc)
    /\ InfoMessage.Build "Swimming" (Int 1)
         (Float (720 * 1.38 / 1000)) (Float 1) (Float 336)
       = InfoMessage.Build "Swimming" (Int 1) (Float fd) (Float fs) (Float fc).
Proof.
  assert (E : result (show_training_info pow_by_product)
                (Swimming (Int 720) (Int 1) (Int 80) (Int 25) (Int 40))
              = Ok (InfoMessage.Build "Swimming" (Int 1)
                      (Float (720 * 1.38 / 1000)) (Float 1) (Float 336)))
    by (vm_compute; reflexivity).
  exact (show_training_info_fields pow_by_product _ _ E).
Defined.

(** X6.  Whenever [show_training_info()] returns, formatting does not
    fail: [get_message()] returns a line and [main] prints it. *)
Theorem main_prints_the_message :
  forall libm_pow (self : Training) (info : InfoMessage.t),
    result (show_training_info libm_pow) self = Ok info ->
    exists line,
      InfoMessage.get_message info = Ok line /\ main libm_pow self = Ok line.
Proof. exact main_returns. Qed.

Lemma main_prints_the_message_witness :
  exists line,
    InfoMessage.get_message
      (InfoMessage.Build "Running" (Int 1) (Float 9.75) (Float 9.75)
         (Float 797.805)) = Ok line
    /\ main pow_by_product (Running (Int 15000) (Int 1) (Int 75)) = Ok line.
Proof.
  assert (E : result (show_training_info pow_by_product)
                (Running (Int 15000) (Int 1) (Int 75))
              = Ok (InfoMessage.Build "Running" (Int 1) (Float 9.75)
                      (Float 9.75) (Float 797.805)))
    by (vm_compute; reflexivity).
  exact (main_prints_the_message pow_by_product _ _ E).
Defined.

(** X7.  With a duration equal to zero no record gets a mean speed:
    [get_mean_speed()] raises [ZeroDivisionError], or [OverflowError]
    when a conversion fails first, and then [get_spent_calories()],
    [show_training_info()] and [main] do not return either.  On a
    record that is not a Swimming one whose distance is computed the
    exception is [ZeroDivisionError]. *)
Theorem zero_duration_never_returns :
  forall libm_pow (self : Training),
    is_zero (duration self) = true ->
    (result get_mean_speed self = Raise ZeroDivisionError
     \/ result get_mean_speed self = Raise OverflowError)
    /\ returns (result (get_spent_calories libm_pow) self) = false
    /\ returns (result (show_training_info libm_pow) self) = false
    /\ returns (main libm_pow self) = false
    /\ (forall dist,
           class_of self <> ClassSwimming ->
           result get_distance self = Ok dist ->
           result get_mean_speed self = Raise ZeroDivisionError).
Proof.
  intros libm_pow self Hd.
  pose proof (get_mean_speed_zero_duration self Hd) as Hms.
  destruct (show_training_info_needs_speed libm_pow self Hms) as [Hs Hm].
  repeat split.
  - apply arith_outcome_raise; [apply get_mean_speed_arith | exact Hms].
  - now apply get_spent_calories_zero_duration.
  - exact Hs.
  - exact Hm.
  - intros dist Hc Hdist. now apply (get_mean_speed_zero_division self dist).
Qed.

Lemma zero_duration_never_returns_witness :
  is_zero (duration (Running (Int 15000) (Float 0) (Int 75))) = true
  /\ returns (main pow_by_product (Running (Int 15000) (Float 0) (Int 75)))
     = false.
Proof.
  split; [ reflexivity | ].
  exact (proj1 (proj2 (proj2 (proj2
           (zero_duration_never_returns pow_by_product
              (Running (Int 15000) (Float 0) (Int 75)) eq_refl))))).
Defined.

(** X8.  With a height equal to zero [SportsWalking.get_spent_calories()]
    never returns: it raises [ZeroDivisionError], or [OverflowError]
    when a conversion or the square fails first; [show_training_info()]
    and [main] do not return either. *)
Theorem zero_height_never_returns :
  forall libm_pow (a d w h : num),
    is_zero h = true ->
    (result (get_spent_calories libm_pow) (SportsWalking a d w h)
     = Raise ZeroDivisionError
     \/ result (get_spent_calories libm_pow) (SportsWalking a d w h)
        = Raise OverflowError)
    /\ returns (result (show_training_info libm_pow) (SportsWalking a d w h))
       = false
    /\ returns (main libm_pow (SportsWalking a d w h)) = false.
Proof.
  intros libm_pow a d w h Hh.
  pose proof (walking_calories_zero_height libm_pow a d w h Hh) as Hc.
  split.
  - apply arith_outcome_raise; [ | exact Hc ].
    apply get_spent_calories_arith. discriminate.
  - now apply show_training_info_needs_calories.
Qed.

Lemma zero_height_never_returns_witness :
  is_zero (Int 0) = true
  /\ returns (main pow_by_product
                (SportsWalking (Int 9000) (Int 1) (Int 75) (Int 0))) = false.
Proof.
  split; [ reflexivity | ].
  exact (proj2 (proj2
           (zero_height_never_returns pow_by_product
              (Int 9000) (Int 1) (Int 75) (Int 0) eq_refl))).
Defined.

(** X9.  On an object of the base class [show_training_info()] never
    returns a message object and [main] never prints. *)
Theorem base_training_has_no_summary :
  forall libm_pow (a d w : num),
    returns (result (show_training_info libm_pow) (BaseTraining a d w)) = false
    /\ returns (main libm_pow (BaseTraining a d w)) = false.
Proof.
  intros libm_pow a d w.
  apply show_training_info_needs_calories. reflexivity.
Qed.

(** X10.  What the getters do not read.  A Running and a SportsWalking
    record with the same action have the same distance, and with the
    same duration the same mean speed, whatever the weight and the
    height; the distance of a Swimming record depends on its action
    only; the calories of a Swimming record do not depend on its
    action. *)
Theorem getters_ignore_fields :
  (forall a d w d' w' h',
      result get_distance (Running a d w)
      = result get_distance (SportsWalking a d' w' h'))
  /\ (forall a d w w' h',
         result get_mean_speed (Running a d w)
         = result get_mean_speed (SportsWalking a d w' h'))
  /\ (forall a d w lp cp d' w' lp' cp',
         result get_distance (Swimming a d w lp cp)
         = result get_distance (Swimming a d' w' lp' cp'))
  /\ (forall libm_pow a a' d w lp cp,
         result (get_spent_calories libm_pow) (Swimming a d w lp cp)
         = result (get_spent_calories libm_pow) (Swimming a' d w lp cp)).
Proof.
  repeat split; intros.
  - apply get_distance_reads; reflexivity.
  - change (result Training_get_mean_speed (Running a d w)
            = result Training_get_mean_speed (SportsWalking a d w' h')).
    rewrite !result_Training_get_mean_speed.
    rewrite (get_distance_reads (Running a d w) (SportsWalking a d w' h'));
      reflexivity.
  - apply get_distance_reads; reflexivity.
  - rewrite !result_Swimming_get_spent_calories.
    now rewrite !result_Swimming_get_mean_speed.
Qed.

(** X11.  On a Running record whose action, duration and weight are in
    the float range and whose duration is not zero, the three getters
    return, with the values of the float expressions
    [action * 0.65 / 1000], [distance / duration] and
    [(18 * speed + 1.79) * weight / 1000 * duration * 60]. *)
Theorem running_float_values :
  forall libm_pow (a d w : num) (fa fd fw : float),
    as_float a = Ok fa -> as_float d = Ok fd -> as_float w = Ok fw ->
    is_zero d = false ->
    let dist := (fa * 0.65 / 1000)%float in
    let speed := (dist / fd)%float in
    result get_distance (Running a d w) = Ok (Float dist)
    /\ result get_mean_speed (Running a d w) = Ok (Float speed)
    /\ result (get_spent_calories libm_pow) (Running a d w)
       = Ok (Float ((18 * speed + 1.79) * fw / 1000 * fd * 60)).
Proof. exact running_values. Qed.

Lemma running_float_values_witness :
  result (get_spent_calories pow_by_product)
    (Running (Int 15000) (Int 1) (Float 75.5))
  = Ok (Float ((18 * (15000 * 0.65 / 1000 / 1) + 1.79) * 75.5 / 1000 * 1 * 60)).
Proof.
  assert (Ha : as_float (Int 15000) = Ok 15000%float)
    by (vm_compute; reflexivity).
  assert (Hd : as_float (Int 1) = Ok 1%float) by (vm_compute; reflexivity).
  exact (proj2 (proj2 (running_float_values pow_by_product
                         (Int 15000) (Int 1) (Float 75.5) _ _ _
                         Ha Hd eq_refl eq_refl))).
Defined.

(** X12.  On a Swimming record whose pool distance
    [length_pool * count_pool / 1000] evaluates to a float, whose
    duration and weight are in the float range and whose duration is
    not zero, [get_mean_speed()] and [get_spent_calories()] return,
    with the values of the float expressions [km / duration] and
    [(speed + 1.1) * 2 * weight * duration]. *)
Theorem swimming_float_values :
  forall libm_pow (a d w lp cp : num) (km fd fw : float),
    (lp * cp / Int 1000)%py = Ok (Float km) ->
    as_float d = Ok fd -> as_float w = Ok fw ->
    is_zero d = false ->
    let speed := (km / fd)%float in
    result get_mean_speed (Swimming a d w lp cp) = Ok (Float speed)
    /\ result (get_spent_calories libm_pow) (Swimming a d w lp cp)
       = Ok (Float ((speed + 1.1) * 2 * fw * fd)).
Proof. exact swimming_values. Qed.

Lemma swimming_float_values_witness :
  result (get_spent_calories pow_by_product)
    (Swimming (Int 720) (Int 1) (Int 80) (Int 25) (Int 40))
  = Ok (Float ((1 / 1 + 1.1) * 2 * 80 * 1)).
Proof.
  assert (Hkm : (Int 25 * Int 40 / Int 1000)%py = Ok (Float 1))
    by (vm_compute; reflexivity).
  assert (Hd : as_float (Int 1) = Ok 1%float) by (vm_compute; reflexivity).
  assert (Hw : as_float (Int 80) = Ok 80%float) by (vm_compute; reflexivity).
  exact (proj2 (swimming_float_values pow_by_product
                  (Int 720) (Int 1) (Int 80) (Int 25) (Int 40) _ _ _
                  Hkm Hd Hw eq_refl)).
Defined.

(** X13.  On a SportsWalking record whose fields are in the float
    range, with duration and height not zero, and on which the square
    of [speed * 0.278] returns [sq], [get_mean_speed()] and
    [get_spent_calories()] return, with the values of the float
    expressions [action * 0.65 / 1000 / duration] and
    [(0.035 * weight + sq / height * 100 * 0.029 * weight)
      * duration * 60]. *)
Theorem walking_float_values :
  forall libm_pow (a d w h : num) (fa fd fw fh sq : float),
    as_float a = Ok fa -> as_float d = Ok fd -> as_float w = Ok fw ->
    as_float h = Ok fh ->
    is_zero d = false -> is_zero h = false ->
    let speed := (fa * 0.65 / 1000 / fd)%float in
    float_pow2 libm_pow (speed * 0.278) = Ok sq ->
    result get_mean_speed (SportsWalking a d w h) = Ok (Float speed)
    /\ result (get_spent_calories libm_pow) (SportsWalking a d w h)
       = Ok (Float ((0.035 * fw + sq / fh * 100 * 0.029 * fw) * fd * 60)).
Proof. exact walking_values. Qed.

Lemma walking_float_values_witness :
  result get_mean_speed (SportsWalking (Int 9000) (Int 1) (Int 75) (Int 180))
  = Ok (Float (9000 * 0.65 / 1000 / 1)).
Proof.
  assert (Ha : as_float (Int 9000) = Ok 9000%float)
    by (vm_compute; reflexivity).
  assert (Hd : as_float (Int 1) = Ok 1%float) by (vm_compute; reflexivity).
  assert (Hw : as_float (Int 75) = Ok 75%float) by (vm_compute; reflexivity).
  assert (Hh : as_float (Int 180) = Ok 180%float)
    by (vm_compute; reflexivity).
  assert (Hsq : float_pow2 pow_by_product (9000 * 0.65 / 1000 / 1 * 0.278)
                = Ok (9000 * 0.65 / 1000 / 1 * 0.278
                      * (9000 * 0.65 / 1000 / 1 * 0.278))%float)
    by (vm_compute; reflexivity).
  exact (proj1 (walking_float_values pow_by_product
                  (Int 9000) (Int 1) (Int 75) (Int 180) _ _ _ _ _
                  Ha Hd Hw Hh eq_refl eq_refl Hsq)).
Defined.

(** X14.  [get_message()] fails only by [OverflowError], on a field
    that is an [int] beyond the float range; on float fields, infinite
    or NaN ones included, it returns. *)
Theorem get_message_fails_only_by_overflow :
  (forall info : InfoMessage.t,
      returns (InfoMessage.get_message info) = true
      \/ InfoMessage.get_message info = Raise OverflowError)
  /\ (forall (name : string) (fd fdist fs fc : float),
         returns (InfoMessage.get_message
                    (InfoMessage.Build name (Float fd) (Float fdist)
                       (Float fs) (Float fc))) = true).
Proof.
  split.
  - intros info.
    destruct (InfoMessage.get_message info) as [line | e] eqn:H.
    + left. reflexivity.
    + right. f_equal. exact (get_message_error info e H).
  - intros name fd fdist fs fc.
    destruct (get_message_returns name (Float fd) fd fdist fs fc eq_refl)
      as [line ->].
    reflexivity.
Qed.
